(** * gl_utils: geometry helpers and the texture wrapper

    A shallow embedding of [gl_utils/math.go] and [gl_utils/texture.go].

    - Go's [int] is taken as the 64-bit signed integer of the usual
      desktop targets; [int32] and [uint32] conversions wrap.
    - [make] panics on a size that is negative or beyond the allocation
      limit of the runtime, 2^48 bytes on amd64; within the limit the
      memory is taken to be there.
    - [float32] and [float64] values are IEEE 754 binary32 and binary64
      numbers, represented by [spec_float] with the operations of
      [SpecFloat] at precision 24 and 53 (round to nearest, ties to
      even); every operation is rounded on its own, as on amd64, where
      the compiler does not fuse a multiplication with an addition.
    - [math.Sin] and [math.Cos] are parameters.
    - The OpenGL context is an explicit state: the texture bound to
      each unit and target, and the parameters and last upload of each
      texture object.  The error flag of the context is left out: the
      source never reads it.
    - A [*Texture] is an address in a heap of [Texture] records.
    - [fmt.Print*] appends to an output log.
    - Go's [image] package is an interface with the signatures of the
      call sites; [image.go_image] gives its allocators as the Go
      distribution has them.  An [image.Image] can be nil: then the call
      of its [Bounds] method panics.  The file system and [image.Decode]
      are an interface as well. *)

From Stdlib Require Import ZArith Lia Bool.
From Stdlib Require Import Floats.SpecFloat.
From stdpp Require Import base gmap strings list vector.

Open Scope Z_scope.

(* ================================================================== *)
(** * Part I: definitions                                              *)
(* ================================================================== *)

(** ** Fixed-width integers *)

Module GoInt.

(** Two's-complement reduction of [x] to a signed [bits]-bit integer. *)
Definition wrap (bits x : Z) : Z :=
  (x + 2 ^ (bits - 1)) mod 2 ^ bits - 2 ^ (bits - 1).

Definition int (x : Z) : Z := wrap 64 x.
Definition int32 (x : Z) : Z := wrap 32 x.
Definition uint32 (x : Z) : Z := x mod 2 ^ 32.

Definition in_int32 (x : Z) : Prop := - 2 ^ 31 <= x < 2 ^ 31.

End GoInt.

(** ** The run-time outcomes of a Go call *)

(** A call that can fail returns [Ok] with its value or [Err] with the
    error (the other component of Go's pair being nil); [Panic] is a
    run-time panic, which none of the functions here recovers from. *)
Inductive result (A : Type) : Type :=
| Ok (a : A)
| Err (e : string)
| Panic (why : string).
Arguments Ok {A} a.
Arguments Err {A} e.
Arguments Panic {A} why.

(** ** Floating point *)

Module F32.
Definition prec : Z := 24.
Definition emax : Z := 128.
Definition t : Type := spec_float.

Definition zero : t := S754_zero false.
Definition add : t -> t -> t := SFadd prec emax.
Definition mul : t -> t -> t := SFmul prec emax.
Definition neg : t -> t := SFopp.
Definition ltb : t -> t -> bool := SFltb.
Definition leb : t -> t -> bool := SFleb.
(** Go's [x > y] on floats. *)
Definition gtb (x y : t) : bool := SFltb y x.

(** [float32(x)] for a [float64] [x]. *)
Definition of_float64 (x : spec_float) : t :=
  match x with
  | S754_finite s m e => binary_round prec emax s m e
  | _ => x
  end.

(** [float32(n)] for an integer [n]. *)
Definition of_int (n : Z) : t := binary_normalize prec emax n 0 false.

(** A binary32 number that is neither an infinity nor a NaN. *)
Definition is_finite (x : t) : bool :=
  match x with
  | S754_zero _ => true
  | S754_finite _ m e => bounded prec emax m e
  | _ => false
  end.
End F32.

Module F64.
Definition prec : Z := 53.
Definition emax : Z := 1024.
Definition t : Type := spec_float.

Definition div : t -> t -> t := SFdiv prec emax.

(** [float64(x)] for a [float32] [x] (exact). *)
Definition of_float32 (x : spec_float) : t :=
  match x with
  | S754_finite s m e => binary_round prec emax s m e
  | _ => x
  end.

(** [float64(n)] for an [int] [n]. *)
Definition of_int (n : Z) : t := binary_normalize prec emax n 0 false.
End F64.

Module math.
(** [math.MaxFloat32] = (2^24 - 1) * 2^104. *)
Definition MaxFloat32 : F32.t := S754_finite false 16777215 104.

(** The constant expression [math.Pi * 2.0] as a [float64]:
    0x401921FB54442D18. *)
Definition Pi2 : F64.t := S754_finite false 7074237752028440 (-50).
End math.

(** ** The parts of [mgl32] and [mgl64] that [math.go] uses *)

Module mgl32.

(** [Vec2] is [[2]float32]. *)
Record Vec2 : Type := mkVec2 { X : F32.t; Y : F32.t }.

(** [Mat2] is [[4]float32], column major. *)
Record Mat2 : Type := mkMat2 { m0 : F32.t; m1 : F32.t; m2 : F32.t; m3 : F32.t }.

Definition Add (v1 v2 : Vec2) : Vec2 :=
  mkVec2 (F32.add (X v1) (X v2)) (F32.add (Y v1) (Y v2)).

Definition Mul2x1 (m : Mat2) (v : Vec2) : Vec2 :=
  mkVec2 (F32.add (F32.mul (m0 m) (X v)) (F32.mul (m2 m) (Y v)))
         (F32.add (F32.mul (m1 m) (X v)) (F32.mul (m3 m) (Y v))).

Section Trig.
Variables Sin Cos : F64.t -> F64.t.

Definition Rotate2D (angle : F32.t) : Mat2 :=
  let sin := F32.of_float64 (Sin (F64.of_float32 angle)) in
  let cos := F32.of_float64 (Cos (F64.of_float32 angle)) in
  mkMat2 cos sin (F32.neg sin) cos.
End Trig.

(** [Mat4] is [[16]float32]. *)
Definition Mat4 : Type := vec F32.t 16.

Definition one : F32.t := S754_finite false 8388608 (-23).

Definition Ident4 : Mat4 :=
  [# one; F32.zero; F32.zero; F32.zero;
     F32.zero; one; F32.zero; F32.zero;
     F32.zero; F32.zero; one; F32.zero;
     F32.zero; F32.zero; F32.zero; one ].

End mgl32.

Module mgl64.

(** [Mat4] is [[16]float64]. *)
Definition Mat4 : Type := vec F64.t 16.

Definition zero : F64.t := S754_zero false.
Definition one : F64.t := S754_finite false 4503599627370496 (-52).

Definition Ident4 : Mat4 :=
  [# one; zero; zero; zero;
     zero; one; zero; zero;
     zero; zero; one; zero;
     zero; zero; zero; one ].

End mgl64.

(** ** math.go *)

Import mgl32.

Module runtime.

(** [maxAlloc] of the Go runtime on amd64: no allocation is larger
    than 2^48 bytes. *)
Definition maxAlloc : Z := 2 ^ 48.

(** The check of [runtime.makeslice] on the [n] elements of [elemsize]
    bytes that a [make] asks for: it panics when [n] is negative and
    when [elemsize * n] overflows or is more than [maxAlloc].  Past the
    check the memory is taken to be there: running out of it is a fatal
    error of the process, not a panic, and is not part of the model. *)
Definition fits (elemsize n : Z) : bool :=
  negb ((n <? 0) || (maxAlloc <? elemsize * n)).

End runtime.

(** [make([]T, 0, cap)] for elements of [elemsize] bytes: the capacity
    expression has already been reduced to an [int]. *)
Definition makeslice {A : Type} (elemsize cap : Z) : option (list A) :=
  if runtime.fits elemsize cap then Some [] else None.

Section CircleToPolygon.
Variables Sin Cos : F64.t -> F64.t.

(** The body of the [for index := 0; index < numSegments; index++]
    loop, run for the [n] iterations that remain. *)
Fixpoint polygon_loop (n : nat) (rotation : Mat2) (center point : Vec2)
    (vertices : list Vec2) : list Vec2 :=
  match n with
  | O => vertices
  | S k =>
    let p := Add point center in
    polygon_loop k rotation center (Mul2x1 rotation point) (vertices ++ [p])
  end.

Definition CircleToPolygon (center : Vec2) (radius : F32.t)
    (numSegments : Z) (startAngle : F32.t) : result (list Vec2) :=
  if F32.leb radius F32.zero then Err "Radius cannot be <=0"
  else if numSegments <? 3 then Err "numSegments must be >= 3"
  else
    let point := Mul2x1 (Rotate2D Sin Cos startAngle) (mkVec2 radius F32.zero) in
    match makeslice 8 (GoInt.int (numSegments * 2)) with
    | None => Panic "runtime error: makeslice: cap out of range"
    | Some vertices =>
      let rotation :=
        Rotate2D Sin Cos
          (F32.of_float64 (F64.div math.Pi2 (F64.of_int numSegments))) in
      Ok (polygon_loop (Z.to_nat numSegments) rotation center point vertices)
    end.
End CircleToPolygon.

(** The four running extremes of [GetBoundingBox]. *)
Record extremes : Type := mkExtremes {
  minX : F32.t; minY : F32.t; maxX : F32.t; maxY : F32.t
}.

(** One iteration of [for _, p := range points]. *)
Definition bbox_step (st : extremes) (p : Vec2) : extremes :=
  let minX' := if F32.ltb (X p) (minX st) then X p else minX st in
  let maxX' := if F32.gtb (X p) (maxX st) then X p else maxX st in
  let minY' := if F32.ltb (Y p) (minY st) then Y p else minY st in
  let maxY' := if F32.gtb (Y p) (maxY st) then Y p else maxY st in
  mkExtremes minX' minY' maxX' maxY'.

Definition bbox_init : extremes :=
  mkExtremes math.MaxFloat32 math.MaxFloat32
             (F32.neg math.MaxFloat32) (F32.neg math.MaxFloat32).

Definition GetBoundingBox (points : list Vec2) : Vec2 * Vec2 :=
  let st := fold_left bbox_step points bbox_init in
  (mkVec2 (minX st) (minY st), mkVec2 (maxX st) (maxY st)).

Definition Mat4From64to32Bits (mat : mgl64.Mat4) : mgl32.Mat4 :=
  [# F32.of_float64 (mat !!! 0%fin);
     F32.of_float64 (mat !!! 1%fin);
     F32.of_float64 (mat !!! 2%fin);
     F32.of_float64 (mat !!! 3%fin);
     F32.of_float64 (mat !!! 4%fin);
     F32.of_float64 (mat !!! 5%fin);
     F32.of_float64 (mat !!! 6%fin);
     F32.of_float64 (mat !!! 7%fin);
     F32.of_float64 (mat !!! 8%fin);
     F32.of_float64 (mat !!! 9%fin);
     F32.of_float64 (mat !!! 10%fin);
     F32.of_float64 (mat !!! 11%fin);
     F32.of_float64 (mat !!! 12%fin);
     F32.of_float64 (mat !!! 13%fin);
     F32.of_float64 (mat !!! 14%fin);
     F32.of_float64 (mat !!! 15%fin) ].

(** ** OpenGL: the state of the current context *)

Module gl.

Definition TEXTURE_2D : Z := 3553.          (* 0x0DE1 *)
Definition TEXTURE0 : Z := 33984.           (* 0x84C0 *)
Definition TEXTURE_MAG_FILTER : Z := 10240. (* 0x2800 *)
Definition TEXTURE_MIN_FILTER : Z := 10241. (* 0x2801 *)
Definition TEXTURE_WRAP_S : Z := 10242.     (* 0x2802 *)
Definition TEXTURE_WRAP_T : Z := 10243.     (* 0x2803 *)
Definition LINEAR : Z := 9729.              (* 0x2601 *)
Definition CLAMP_TO_EDGE : Z := 33071.      (* 0x812F *)
Definition RED : Z := 6403.                 (* 0x1903 *)
Definition RGBA : Z := 6408.                (* 0x1908 *)
Definition UNSIGNED_BYTE : Z := 5121.       (* 0x1401 *)

(** The arguments of one [glTexImage2D] call, with the client buffer
    it was given. *)
Record TexImage : Type := mkTexImage {
  level : Z;
  internalformat : Z;
  img_width : Z;
  img_height : Z;
  border : Z;
  format : Z;
  xtype : Z;
  pixels : list Z
}.

(** A texture object: its sampler parameters and its last upload. *)
Record TexObject : Type := mkTexObject {
  params : gmap Z Z;
  image : option TexImage
}.

Definition empty_object : TexObject := mkTexObject ∅ None.

(** The context: the next unused texture name, the active texture
    unit, the texture bound to each (unit, target), and the objects. *)
Record State : Type := mkState {
  next_name : Z;
  active : Z;
  bindings : gmap (Z * Z) Z;
  objects : gmap Z TexObject
}.

Definition init : State := mkState 1 TEXTURE0 ∅ ∅.

(** The name bound to [target] on the active unit; 0 when none is. *)
Definition bound (target : Z) (st : State) : Z :=
  default 0 (bindings st !! (active st, target)).

Definition object (name : Z) (st : State) : TexObject :=
  default empty_object (objects st !! name).

(** [glGenTextures(1, &name)] *)
Definition GenTextures (st : State) : Z * State :=
  (next_name st,
   mkState (next_name st + 1) (active st) (bindings st) (objects st)).

Definition ActiveTexture (unit : Z) (st : State) : State :=
  mkState (next_name st) unit (bindings st) (objects st).

Definition BindTexture (target name : Z) (st : State) : State :=
  mkState (next_name st) (active st)
          (<[(active st, target) := name]> (bindings st)) (objects st).

(** Applies [f] to the object bound to [target] on the active unit. *)
Definition on_bound (target : Z) (f : TexObject -> TexObject) (st : State) : State :=
  let name := bound target st in
  mkState (next_name st) (active st) (bindings st)
          (<[name := f (object name st)]> (objects st)).

Definition TexParameteri (target pname param : Z) (st : State) : State :=
  on_bound target (fun o => mkTexObject (<[pname := param]> (params o)) (image o)) st.

Definition TexImage2D (target level internalformat width height border
    format xtype : Z) (pixels : list Z) (st : State) : State :=
  on_bound target
    (fun o => mkTexObject (params o)
       (Some (mkTexImage level internalformat width height border format xtype pixels)))
    st.

End gl.

(** ** Go's [image] package, as far as [texture.go] uses it *)

Module image.

Record Point : Type := mkPoint { PX : Z; PY : Z }.
Record Rectangle : Type := mkRectangle { Min : Point; Max : Point }.

Definition Dx (r : Rectangle) : Z := GoInt.int (PX (Max r) - PX (Min r)).
Definition Dy (r : Rectangle) : Z := GoInt.int (PY (Max r) - PY (Min r)).
Definition Size (r : Rectangle) : Point := mkPoint (Dx r) (Dy r).

(** The layout shared by [image.Gray], [image.Gray16], [image.RGBA]
    and [image.NRGBA]. *)
Record Raster : Type := mkRaster {
  Pix : list Z;
  Stride : Z;
  Rect : Rectangle
}.

(** A colour as [At] returns it: red, green, blue, alpha. *)
Definition Color : Type := (Z * Z * Z * Z)%type.

(** The dynamic types that the type switch of [NewTextureFromImage]
    tells apart; [Other] is any further implementation of
    [image.Image], seen through its interface.  [Nil] is an image
    whose [Bounds] method cannot be called: the nil interface value, or
    a nil pointer of a type whose [Bounds] reads the receiver, as
    [*image.Gray16] and [*image.NRGBA] do. *)
Inductive Image : Type :=
| Gray16 (r : Raster)
| NRGBA (r : Raster)
| Other (bounds : Rectangle) (At : Z -> Z -> Color)
| Nil.

(** The rectangle that [Bounds()] returns.  On [Nil] the call panics
    (see [image_Bounds] below) and the value given here is not read. *)
Definition Bounds (m : Image) : Rectangle :=
  match m with
  | Gray16 r | NRGBA r => Rect r
  | Other bounds _ => bounds
  | Nil => mkRectangle (mkPoint 0 0) (mkPoint 0 0)
  end.

(** What [texture.go] calls in [image] and [image/draw]: the two
    allocators ([None] when they panic, with the value of the panic
    given apart) and [draw.Draw] with operator [draw.Src], which yields
    the destination after the copy. *)
Class Lib : Type := mkLib {
  NewGray : Rectangle -> option Raster;
  NewRGBA : Rectangle -> option Raster;
  DrawGray : Raster -> Rectangle -> Image -> Point -> Raster;
  DrawRGBA : Raster -> Rectangle -> Image -> Point -> Raster;
  NewGray_panic : Rectangle -> string;
  NewRGBA_panic : Rectangle -> string
}.

(** [mul3NonNeg] of Go's [image] package: [x * y * z], or -1 when an
    argument is negative or when [x * y], then the product with [z],
    does not fit 64 bits, or the result is not an [int]. *)
Definition mul3NonNeg (x y z : Z) : Z :=
  if (x <? 0) || (y <? 0) || (z <? 0) then -1
  else if 2 ^ 64 <=? x * y then -1
  else if 2 ^ 64 <=? x * y * z then -1
  else if 2 ^ 63 <=? x * y * z then -1
  else x * y * z.

(** [pixelBufferLength] of Go's [image] package: the size of the
    buffer of an image of rectangle [r], or [None] when [mul3NonNeg]
    gives -1 (the allocator then panics). *)
Definition pixelBufferLength (bytesPerPixel : Z) (r : Rectangle) : option Z :=
  let totalLength := mul3NonNeg bytesPerPixel (Dx r) (Dy r) in
  if totalLength <? 0 then None else Some totalLength.

(** The allocator of Go's [image] package for [bytesPerPixel] bytes a
    pixel: [make([]uint8, pixelBufferLength(...))], a zero-filled
    buffer, with tightly packed rows. *)
Definition go_alloc (bytesPerPixel : Z) (r : Rectangle) : option Raster :=
  match pixelBufferLength bytesPerPixel r with
  | None => None
  | Some n =>
    if runtime.fits 1 n
    then Some (mkRaster (repeat 0 (Z.to_nat n)) (GoInt.int (bytesPerPixel * Dx r)) r)
    else None
  end.

(** The value with which that allocator panics: the one of
    [pixelBufferLength], or else the one of [make]. *)
Definition go_alloc_panic (name : string) (bytesPerPixel : Z) (r : Rectangle) : string :=
  match pixelBufferLength bytesPerPixel r with
  | None => "image: New" +:+ name +:+ " Rectangle has huge or negative dimensions"
  | Some _ => "runtime error: makeslice: len out of range"
  end.

(** Go's [image] package, for given conversions of [draw.Draw]. *)
Definition go_image (drawGray drawRGBA : Raster -> Rectangle -> Image -> Point -> Raster)
    : Lib :=
  mkLib (go_alloc 1) (go_alloc 4) drawGray drawRGBA
        (go_alloc_panic "Gray" 1) (go_alloc_panic "RGBA" 4).

(** An allocator that starts every row on an 8-byte boundary, as in
    the case of padded rows that the stride checks are written for. *)
Definition padded_alloc (bytesPerPixel : Z) (r : Rectangle) : option Raster :=
  match pixelBufferLength bytesPerPixel r with
  | None => None
  | Some n =>
    let stride := 8 * ((bytesPerPixel * Dx r + 7) / 8) in
    Some (mkRaster (repeat 0 (Z.to_nat (stride * Dy r))) stride r)
  end.

Definition padded_image (drawGray drawRGBA : Raster -> Rectangle -> Image -> Point -> Raster)
    : Lib :=
  mkLib (padded_alloc 1) (padded_alloc 4) drawGray drawRGBA
        (go_alloc_panic "Gray" 1) (go_alloc_panic "RGBA" 4).

(** The outcome of [image.Decode]. *)
Inductive Decoded : Type :=
| DecodeOk (m : Image) (format : string)
| DecodeErr (format : string) (err : string).

End image.

(** ** The world outside the program *)

(** [*Texture]: an address in the heap. *)
Definition ptr : Type := positive.

Record Texture : Type := mkTexture {
  id : Z;
  width : Z;
  height : Z
}.

Record World : Type := mkWorld {
  gl_state : gl.State;
  heap : gmap ptr Texture;
  stdout : list string;
  open_files : nat
}.

Definition world0 : World := mkWorld gl.init ∅ [] 0.

(** The file system and the decoders registered with [image]. *)
Class Host : Type := mkHost {
  File : Type;
  os_Open : string -> File + string;
  image_Decode : File -> image.Decoded
}.

(** ** Computations: state passing with panics *)

Inductive outcome (A : Type) : Type :=
| Returned (a : A) (w : World)
| Panicked (why : string) (w : World).
Arguments Returned {A} a w.
Arguments Panicked {A} why w.

Definition M (A : Type) : Type := World -> outcome A.

Definition ret {A : Type} (a : A) : M A := fun w => Returned a w.

Definition bind {A B : Type} (c : M A) (k : A -> M B) : M B :=
  fun w =>
    match c w with
    | Returned a w' => k a w'
    | Panicked why w' => Panicked why w'
    end.

Definition panic {A : Type} (why : string) : M A := fun w => Panicked why w.

Notation "'let*' x ':=' c 'in' k" := (bind c (fun x => k))
  (at level 10, x name, c at level 100, k at level 200).
Notation "c >> k" := (bind c (fun _ => k))
  (at level 100, k at level 200, right associativity).

(** A call into the OpenGL context. *)
Definition gl_call (f : gl.State -> gl.State) : M unit :=
  fun w => Returned tt (mkWorld (f (gl_state w)) (heap w) (stdout w) (open_files w)).

Definition gl_GenTextures : M Z :=
  fun w =>
    let (name, st) := gl.GenTextures (gl_state w) in
    Returned name (mkWorld st (heap w) (stdout w) (open_files w)).

(** [gl.Ptr(data)] of go-gl for a slice: the address of its first
    element, which an empty slice does not have. *)
Definition gl_Ptr (data : list Z) : M (list Z) :=
  match data with
  | [] => panic "reflect: slice index out of range"
  | _ :: _ => ret data
  end.

(** The panic of a method call through a nil pointer or interface. *)
Definition nil_dereference : string :=
  "runtime error: invalid memory address or nil pointer dereference".

(** [imageData.Bounds()]: on [image.Nil] the call panics. *)
Definition image_Bounds (m : image.Image) : M image.Rectangle :=
  match m with
  | image.Nil => panic nil_dereference
  | _ => ret (image.Bounds m)
  end.

(** [fmt.Print*]: the formatted text goes to the standard output. *)
Definition fmt_Print (s : string) : M unit :=
  fun w => Returned tt (mkWorld (gl_state w) (heap w) (stdout w ++ [s]) (open_files w)).

Definition newline : string := String (Ascii.ascii_of_nat 10) EmptyString.

Definition fmt_Println (s : string) : M unit := fmt_Print (s +:+ newline).

(** [&Texture{...}] *)
Definition alloc (t : Texture) : M ptr :=
  fun w =>
    let p := fresh (dom (heap w)) in
    Returned p (mkWorld (gl_state w) (<[p := t]> (heap w)) (stdout w) (open_files w)).

(** [*p]; a nil or dangling pointer panics. *)
Definition load (p : ptr) : M Texture :=
  fun w =>
    match heap w !! p with
    | Some t => Returned t w
    | None => Panicked nil_dereference w
    end.

Definition store (p : ptr) (t : Texture) : M unit :=
  fun w => Returned tt (mkWorld (gl_state w) (<[p := t]> (heap w)) (stdout w) (open_files w)).

(** [defer d] around [body]: [d] runs when [body] returns or panics. *)
Definition defer {A : Type} (d : M unit) (body : M A) : M A :=
  fun w =>
    match body w with
    | Returned a w' =>
      match d w' with
      | Returned _ w'' => Returned a w''
      | Panicked why w'' => Panicked why w''
      end
    | Panicked why w' =>
      match d w' with
      | Returned _ w'' => Panicked why w''
      | Panicked why' w'' => Panicked why' w''
      end
    end.

Definition file_opened : M unit :=
  fun w => Returned tt (mkWorld (gl_state w) (heap w) (stdout w) (S (open_files w))).

Definition file_Close : M unit :=
  fun w => Returned tt (mkWorld (gl_state w) (heap w) (stdout w) (pred (open_files w))).

(** A [return] inside the [switch] leaves the function; otherwise
    control falls through to the statements after it. *)
Inductive flow (A : Type) : Type :=
| Return (v : A)
| FallThrough.
Arguments Return {A} v.
Arguments FallThrough {A}.

(** ** texture.go *)

Section Texture.
Context `{lib : image.Lib} `{host : Host}.

(** [gl.TexImage2D(gl.TEXTURE_2D, 0, internalformat, texture.width,
    texture.height, 0, format, gl.UNSIGNED_BYTE, gl.Ptr(pix))] *)
Definition upload (texture : ptr) (internalformat format : Z) (pix : list Z) : M unit :=
  let* t := load texture in
  let* data := gl_Ptr pix in
  gl_call (gl.TexImage2D gl.TEXTURE_2D 0 internalformat (width t) (height t)
                         0 format gl.UNSIGNED_BYTE data).

(** The statements shared by both constructors: allocation of the
    [Texture], [gl.GenTextures(1, &texture.id)], the binding and the
    four sampler parameters. *)
Definition new_texture (bounds : image.Rectangle) : M ptr :=
  let* texture := alloc (mkTexture 0 (GoInt.int32 (image.Dx bounds))
                                     (GoInt.int32 (image.Dy bounds))) in
  let* name := gl_GenTextures in
  let* t := load texture in
  store texture (mkTexture name (width t) (height t)) >>
  gl_call (gl.ActiveTexture gl.TEXTURE0) >>
  let* t := load texture in
  gl_call (gl.BindTexture gl.TEXTURE_2D (id t)) >>
  gl_call (gl.TexParameteri gl.TEXTURE_2D gl.TEXTURE_MIN_FILTER gl.LINEAR) >>
  gl_call (gl.TexParameteri gl.TEXTURE_2D gl.TEXTURE_MAG_FILTER gl.LINEAR) >>
  gl_call (gl.TexParameteri gl.TEXTURE_2D gl.TEXTURE_WRAP_S gl.CLAMP_TO_EDGE) >>
  gl_call (gl.TexParameteri gl.TEXTURE_2D gl.TEXTURE_WRAP_T gl.CLAMP_TO_EDGE) >>
  ret texture.

Definition NewTextureFromImage (imageData : image.Image) : M (option ptr) :=
  let* bounds := image_Bounds imageData in
  let* texture := new_texture bounds in
  let* sw :=
    match imageData with
    | image.Gray16 _ =>
      match image.NewGray (image.Bounds imageData) with
      | None => panic (image.NewGray_panic (image.Bounds imageData))
      | Some grayImage =>
        if negb (image.Stride grayImage =?
                 GoInt.int (image.PX (image.Size (image.Rect grayImage)) * 1))
        then
          fmt_Println "Error creating texture: unsupported stride" >>
          ret (Return None)
        else
          let grayImage :=
            image.DrawGray grayImage (image.Rect grayImage) imageData
                           (image.mkPoint 0 0) in
          upload texture gl.RED gl.RED (image.Pix grayImage) >>
          ret FallThrough
      end
    | image.NRGBA r =>
      let pixelData := image.Pix r in
      upload texture gl.RGBA gl.RGBA pixelData >>
      ret FallThrough
    | image.Other _ _ =>
      match image.NewRGBA (image.Bounds imageData) with
      | None => panic (image.NewRGBA_panic (image.Bounds imageData))
      | Some rgba =>
        if negb (image.Stride rgba =?
                 GoInt.int (image.PX (image.Size (image.Rect rgba)) * 4))
        then
          fmt_Println "Error creating texture: unsupported stride" >>
          ret (Return None)
        else
          let rgba :=
            image.DrawRGBA rgba (image.Rect rgba) imageData (image.mkPoint 0 0) in
          upload texture gl.RGBA gl.RGBA (image.Pix rgba) >>
          ret FallThrough
      end
    | image.Nil => panic nil_dereference
    end in
  match sw with
  | Return v => ret v
  | FallThrough =>
    gl_call (gl.BindTexture gl.TEXTURE_2D 0) >>
    ret (Some texture)
  end.

Definition NewTextureFromFile (filePath : string) : M (option ptr) :=
  match os_Open filePath with
  | inr err =>
    fmt_Print ("Error loading texture. " +:+ err +:+ newline) >>
    ret None
  | inl file =>
    file_opened >>
    defer file_Close
      match image_Decode file with
      | image.DecodeErr format _ =>
        fmt_Print ("Error decoding <" +:+ format +:+ "> image: '" +:+ filePath
                   +:+ "'" +:+ newline) >>
        ret None
      | image.DecodeOk decodedImage _ =>
        NewTextureFromImage decodedImage
      end
  end.

Definition NewEmptyTexture (width height pixelFormat : Z)
    : M (option ptr * option string) :=
  let bounds := image.mkRectangle (image.mkPoint 0 0) (image.mkPoint width height) in
  match image.NewRGBA bounds with
  | None => panic (image.NewRGBA_panic bounds)
  | Some imageData =>
    let* texture := new_texture (image.Rect imageData) in
    upload texture pixelFormat (GoInt.uint32 pixelFormat) (image.Pix imageData) >>
    gl_call (gl.BindTexture gl.TEXTURE_2D 0) >>
    ret (Some texture, None)
  end.

Definition Bind (t : ptr) : M unit :=
  let* self := load t in
  gl_call (gl.BindTexture gl.TEXTURE_2D (id self)).

Definition Unbind (t : ptr) : M unit :=
  gl_call (gl.BindTexture gl.TEXTURE_2D 0).

Definition ID (t : ptr) : M Z :=
  let* self := load t in ret (id self).

Definition Width (t : ptr) : M Z :=
  let* self := load t in ret (width self).

Definition Height (t : ptr) : M Z :=
  let* self := load t in ret (height self).

End Texture.

(** A caller that holds a [*Texture] and calls its methods. *)
Inductive method : Type := CallBind | CallUnbind | CallID | CallWidth | CallHeight.

Definition call (m : method) (t : ptr) : M unit :=
  match m with
  | CallBind => Bind t
  | CallUnbind => Unbind t
  | CallID => ID t >> ret tt
  | CallWidth => Width t >> ret tt
  | CallHeight => Height t >> ret tt
  end.

Fixpoint calls (ms : list method) (t : ptr) : M unit :=
  match ms with
  | [] => ret tt
  | m :: ms => call m t >> calls ms t
  end.

(** The world in which an outcome leaves the program. *)
Definition final {A : Type} (o : outcome A) : World :=
  match o with
  | Returned _ w | Panicked _ w => w
  end.

(** ** Auxiliary definitions: the objects that the statements name *)

(** Zero or finite, whatever the size of the mantissa. *)
Definition shape (x : spec_float) : bool :=
  match x with
  | S754_zero _ | S754_finite _ _ _ => true
  | _ => false
  end.

(** Each field of the loop state evolves on its own: a running minimum
    or maximum of one coordinate. *)
Definition run_min (m : F32.t) (xs : list F32.t) : F32.t :=
  fold_left (fun m x => if F32.ltb x m then x else m) xs m.

Definition run_max (m : F32.t) (xs : list F32.t) : F32.t :=
  fold_left (fun m x => if F32.gtb x m then x else m) xs m.

(** The points (1,2), (3,0), (-1,5). *)
Definition sample_points : list Vec2 :=
  [ mkVec2 (F32.of_int 1) (F32.of_int 2);
    mkVec2 (F32.of_int 3) (F32.of_int 0);
    mkVec2 (F32.of_int (-1)) (F32.of_int 5) ].

(** The context after [gl.GenTextures], [gl.ActiveTexture],
    [gl.BindTexture] and the four [gl.TexParameteri] calls. *)
Definition configured (st : gl.State) : gl.State :=
  gl.TexParameteri gl.TEXTURE_2D gl.TEXTURE_WRAP_T gl.CLAMP_TO_EDGE
    (gl.TexParameteri gl.TEXTURE_2D gl.TEXTURE_WRAP_S gl.CLAMP_TO_EDGE
      (gl.TexParameteri gl.TEXTURE_2D gl.TEXTURE_MAG_FILTER gl.LINEAR
        (gl.TexParameteri gl.TEXTURE_2D gl.TEXTURE_MIN_FILTER gl.LINEAR
          (gl.BindTexture gl.TEXTURE_2D (gl.next_name st)
            (gl.ActiveTexture gl.TEXTURE0 (snd (gl.GenTextures st))))))).

Definition fresh_ptr (w : World) : ptr := fresh (dom (heap w)).

Definition created (bounds : image.Rectangle) (w : World) : Texture :=
  mkTexture (gl.next_name (gl_state w))
            (GoInt.int32 (image.Dx bounds)) (GoInt.int32 (image.Dy bounds)).

(** The world after [new_texture]. *)
Definition prepared (bounds : image.Rectangle) (w : World) : World :=
  mkWorld (configured (gl_state w))
          (<[fresh_ptr w := created bounds w]> (heap w))
          (stdout w) (open_files w).

(** The world after the upload that follows. *)
Definition uploaded (bounds : image.Rectangle) (internalformat format : Z)
    (pix : list Z) (w : World) : World :=
  mkWorld
    (gl.TexImage2D gl.TEXTURE_2D 0 internalformat
       (GoInt.int32 (image.Dx bounds)) (GoInt.int32 (image.Dy bounds))
       0 format gl.UNSIGNED_BYTE pix (configured (gl_state w)))
    (<[fresh_ptr w := created bounds w]> (heap w))
    (stdout w) (open_files w).

(** The world on the way out of a constructor: the upload done, the
    texture unbound. *)
Definition finished (bounds : image.Rectangle) (internalformat format : Z)
    (pix : list Z) (w : World) : World :=
  mkWorld
    (gl.BindTexture gl.TEXTURE_2D 0
       (gl_state (uploaded bounds internalformat format pix w)))
    (<[fresh_ptr w := created bounds w]> (heap w))
    (stdout w) (open_files w).

(** The outcome of the upload and of what follows it, for a
    constructor that is to return [v]. *)
Definition completed {A : Type} (v : A) (bounds : image.Rectangle)
    (internalformat format : Z) (pix : list Z) (w : World) : outcome A :=
  match pix with
  | [] => Panicked "reflect: slice index out of range" (prepared bounds w)
  | _ :: _ => Returned v (finished bounds internalformat format pix w)
  end.

(** The world on the way out of a stride failure. *)
Definition refused (bounds : image.Rectangle) (w : World) : World :=
  mkWorld (configured (gl_state w))
          (<[fresh_ptr w := created bounds w]> (heap w))
          (stdout w ++ ["Error creating texture: unsupported stride" +:+ newline])
          (open_files w).

(** [draw.Draw] leaving the destination as it is: enough where the
    pixel values play no part. *)
Definition no_draw (dst : image.Raster) (r : image.Rectangle) (src : image.Image)
    (sp : image.Point) : image.Raster := dst.

Definition rect (x0 y0 x1 y1 : Z) : image.Rectangle :=
  image.mkRectangle (image.mkPoint x0 y0) (image.mkPoint x1 y1).

(** A 3 by 2 [*image.Gray16]: two bytes a pixel. *)
Definition gray16_3x2 : image.Image :=
  image.Gray16 (image.mkRaster (repeat 0 12%nat) 6 (rect 0 0 3 2)).

(** A file system with one file, which no decoder understands. *)
Definition broken_host : Host :=
  mkHost (list Z)
         (fun path => if String.eqb path "broken.png" then inl [137; 80; 78; 71]
                      else inr ("open " +:+ path +:+ ": no such file or directory"))
         (fun _ => image.DecodeErr "png" "unexpected EOF").

(** A 4 by 4 [*image.NRGBA]. *)
Definition nrgba_4x4 : image.Image :=
  image.NRGBA (image.mkRaster (repeat 255 64%nat) 16 (rect 0 0 4 4)).

(** A [*image.NRGBA] of 2^31 by 1 pixels, with its pixel buffer. *)
Definition wide_rect : image.Rectangle := rect 0 0 2147483648 1.

Definition nrgba_wide (pix : list Z) : image.Image :=
  image.NRGBA (image.mkRaster pix 8589934592 wide_rect).

(** ** Further auxiliary definitions *)

(** Neither a NaN nor missing an order: a zero, a finite number or an
    infinity. *)
Definition ordered (x : spec_float) : bool :=
  match x with
  | S754_nan => false
  | _ => true
  end.

(** The update of a running minimum, resp. maximum, in [GetBoundingBox]:
    the new value replaces the old one when it is strictly smaller,
    resp. greater. *)
Definition sel_min (a b : F32.t) : F32.t := if F32.ltb b a then b else a.
Definition sel_max (a b : F32.t) : F32.t := if F32.gtb b a then b else a.

(** The smallest box around two boxes, with the comparisons of the loop. *)
Definition union_box (b1 b2 : Vec2 * Vec2) : Vec2 * Vec2 :=
  (mkVec2 (sel_min (X (fst b1)) (X (fst b2))) (sel_min (Y (fst b1)) (Y (fst b2))),
   mkVec2 (sel_max (X (snd b1)) (X (snd b2))) (sel_max (Y (snd b1)) (Y (snd b2)))).

(** The sign bit of a number; a NaN is taken to have none. *)
Definition signbit (x : spec_float) : option bool :=
  match x with
  | S754_nan => None
  | S754_zero s | S754_infinity s | S754_finite s _ _ => Some s
  end.

(** The start point and the rotation of [CircleToPolygon]. *)
Definition start_point (Sin Cos : F64.t -> F64.t) (radius startAngle : F32.t) : Vec2 :=
  Mul2x1 (Rotate2D Sin Cos startAngle) (mkVec2 radius F32.zero).

Definition step_rotation (Sin Cos : F64.t -> F64.t) (numSegments : Z) : Mat2 :=
  Rotate2D Sin Cos (F32.of_float64 (F64.div math.Pi2 (F64.of_int numSegments))).

(** The identity functions in place of [math.Sin] and [math.Cos], for
    instances where the values of the vertices play no part. *)
Definition no_trig (x : F64.t) : F64.t := x.

(** The world [w] with [k] files open. *)
Definition with_open_files (k : nat) (w : World) : World :=
  mkWorld (gl_state w) (heap w) (stdout w) k.

(** The four sampler parameters that the constructors set, added to
    the parameters [ps] that a texture object has. *)
Definition sampled (ps : gmap Z Z) : gmap Z Z :=
  <[gl.TEXTURE_WRAP_T := gl.CLAMP_TO_EDGE]>
    (<[gl.TEXTURE_WRAP_S := gl.CLAMP_TO_EDGE]>
      (<[gl.TEXTURE_MAG_FILTER := gl.LINEAR]>
        (<[gl.TEXTURE_MIN_FILTER := gl.LINEAR]> ps))).

(** A host whose one file decodes to the 4 by 4 image. *)
Definition sound_host : Host :=
  mkHost (list Z)
         (fun path => if String.eqb path "tile.png" then inl [137; 80; 78; 71]
                      else inr ("open " +:+ path +:+ ": no such file or directory"))
         (fun _ => image.DecodeOk nrgba_4x4 "png").

(* ================================================================== *)
(** * Part II: properties                                              *)
(* ================================================================== *)

(** ** The order of finite floating-point numbers *)

Lemma is_finite_shape x : F32.is_finite x = true -> shape x = true.
Proof. destruct x; simpl; congruence. Qed.

Ltac cmp_cases :=
  repeat match goal with
  | |- context [Z.compare ?a ?b] => destruct (Z.compare_spec a b)
  | H : context [Z.compare ?a ?b] |- _ => destruct (Z.compare_spec a b)
  | |- context [Pos.compare ?a ?b] => destruct (Pos.compare_spec a b)
  | H : context [Pos.compare ?a ?b] |- _ => destruct (Pos.compare_spec a b)
  end.

(** Comparisons of numbers whose fields are all variables. *)
Ltac float_order :=
  unfold F32.leb, F32.ltb, F32.gtb, SFltb, SFleb, SFcompare in *;
  change (Pos.compare_cont Eq) with Pos.compare in *;
  repeat match goal with s : bool |- _ => destruct s end;
  cmp_cases; simpl in *; try congruence; try lia.

Lemma SFleb_refl a : shape a = true -> SFleb a a = true.
Proof. destruct a; simpl; try discriminate; intros _; float_order. Qed.

Lemma SFltb_false_leb a b :
  shape a = true -> shape b = true -> SFltb a b = false -> SFleb b a = true.
Proof. destruct a, b; simpl; try discriminate; intros _ _; float_order. Qed.

Lemma SFleb_ltb_false a b :
  shape a = true -> shape b = true -> SFleb a b = true -> SFltb b a = false.
Proof. destruct a, b; simpl; try discriminate; intros _ _; float_order. Qed.

Lemma SFltb_leb a b : SFltb a b = true -> SFleb a b = true.
Proof. unfold SFltb, SFleb. destruct (SFcompare a b) as [[]|]; congruence. Qed.

Lemma SFltb_leb_trans a b c :
  shape a = true -> shape b = true -> shape c = true ->
  SFltb a b = true -> SFleb b c = true -> SFleb a c = true.
Proof. destruct a, b, c; simpl; try discriminate; intros _ _ _; float_order. Qed.

Lemma SFleb_ltb_trans a b c :
  shape a = true -> shape b = true -> shape c = true ->
  SFleb a b = true -> SFltb b c = true -> SFleb a c = true.
Proof. destruct a, b, c; simpl; try discriminate; intros _ _ _; float_order. Qed.

Lemma SFleb_trans a b c :
  shape a = true -> shape b = true -> shape c = true ->
  SFleb a b = true -> SFleb b c = true -> SFleb a c = true.
Proof. destruct a, b, c; simpl; try discriminate; intros _ _ _; float_order. Qed.

Lemma SFltb_pos_false m1 e1 m2 e2 :
  SFltb (S754_finite false m1 e1) (S754_finite false m2 e2) = false ->
  e2 < e1 \/ (e1 = e2 /\ (m2 <= m1)%positive).
Proof.
  unfold SFltb, SFcompare. change (Pos.compare_cont Eq) with Pos.compare.
  destruct (Z.compare_spec e1 e2); destruct (Pos.compare_spec m1 m2);
    intros Hf; try discriminate Hf; lia.
Qed.

Lemma SFltb_neg_false m1 e1 m2 e2 :
  SFltb (S754_finite true m1 e1) (S754_finite true m2 e2) = false ->
  e1 < e2 \/ (e1 = e2 /\ (m1 <= m2)%positive).
Proof.
  unfold SFltb, SFcompare. change (Pos.compare_cont Eq) with Pos.compare.
  destruct (Z.compare_spec e1 e2); destruct (Pos.compare_spec m1 m2);
    intros Hf; try discriminate Hf; lia.
Qed.

Lemma digits2_pos_bound (m : positive) : Z.pos m < 2 ^ Z.pos (digits2_pos m).
Proof.
  induction m as [m IH | m IH | ]; simpl digits2_pos.
  - rewrite Pos2Z.inj_succ, Z.pow_succ_r by lia. lia.
  - rewrite Pos2Z.inj_succ, Z.pow_succ_r by lia. lia.
  - reflexivity.
Qed.

(** A binary32 mantissa has at most 24 bits and its exponent is at most
    104. *)
Lemma bounded32_inv m e :
  bounded F32.prec F32.emax m e = true -> Z.pos m <= 16777215 /\ e <= 104.
Proof.
  unfold bounded, canonical_mantissa, fexp, emin, F32.prec, F32.emax.
  intros H. apply andb_true_iff in H as [Hc He].
  apply Z.eqb_eq in Hc. apply Z.leb_le in He.
  split; [ | lia ].
  assert (Hd : Z.pos (digits2_pos m) <= 24) by lia.
  pose proof (digits2_pos_bound m) as Hb.
  assert (2 ^ Z.pos (digits2_pos m) <= 2 ^ 24) by (apply Z.pow_le_mono_r; lia).
  change (2 ^ 24) with 16777216 in *. lia.
Qed.

(** [math.MaxFloat32] is the largest finite binary32 number. *)
Lemma not_below_max x :
  F32.is_finite x = true -> SFltb x math.MaxFloat32 = false -> x = math.MaxFloat32.
Proof.
  unfold math.MaxFloat32.
  destruct x as [s | s | | s m e]; unfold F32.is_finite; intros Hb H.
  - destruct s; discriminate H.
  - discriminate Hb.
  - discriminate Hb.
  - apply bounded32_inv in Hb as [Hm He].
    destruct s; [ discriminate H | ].
    apply SFltb_pos_false in H as [H | [-> H]]; [ lia | ].
    f_equal. lia.
Qed.

Lemma not_above_min x :
  F32.is_finite x = true ->
  SFltb (F32.neg math.MaxFloat32) x = false -> x = F32.neg math.MaxFloat32.
Proof.
  unfold math.MaxFloat32, F32.neg, SFopp, negb.
  destruct x as [s | s | | s m e]; unfold F32.is_finite; intros Hb H.
  - destruct s; discriminate H.
  - discriminate Hb.
  - discriminate Hb.
  - apply bounded32_inv in Hb as [Hm He].
    destruct s; [ | discriminate H ].
    apply SFltb_neg_false in H as [H | [<- H]]; [ lia | ].
    f_equal. lia.
Qed.

(** ** Integer conversions *)

Lemma int_small (x : Z) : - 2 ^ 63 <= x < 2 ^ 63 -> GoInt.int x = x.
Proof.
  intros H. unfold GoInt.int, GoInt.wrap.
  change (2 ^ (64 - 1)) with (2 ^ 63) in *.
  change (2 ^ 64) with (2 * 2 ^ 63) in *.
  set (h := 2 ^ 63) in *.
  rewrite Z.mod_small; lia.
Qed.

Lemma int32_small (x : Z) : GoInt.in_int32 x -> GoInt.int32 x = x.
Proof.
  unfold GoInt.in_int32. intros H. unfold GoInt.int32, GoInt.wrap.
  change (2 ^ (32 - 1)) with (2 ^ 31) in *.
  change (2 ^ 32) with (2 * 2 ^ 31) in *.
  set (h := 2 ^ 31) in *.
  rewrite Z.mod_small; lia.
Qed.

Lemma int32_range (x : Z) : GoInt.in_int32 (GoInt.int32 x).
Proof.
  unfold GoInt.in_int32, GoInt.int32, GoInt.wrap.
  change (2 ^ (32 - 1)) with (2 ^ 31).
  change (2 ^ 32) with (2 * 2 ^ 31).
  set (h := 2 ^ 31). assert (0 < h) by (subst h; lia).
  pose proof (Z.mod_pos_bound (x + h) (2 * h)). lia.
Qed.

(** ** Allocation *)

Lemma fits_true (elemsize n : Z) :
  0 <= n -> elemsize * n <= runtime.maxAlloc -> runtime.fits elemsize n = true.
Proof.
  intros Hn Hm. unfold runtime.fits.
  destruct (Z.ltb_spec n 0); [ lia | ].
  destruct (Z.ltb_spec runtime.maxAlloc (elemsize * n)); [ lia | reflexivity ].
Qed.

Lemma fits_false (elemsize n : Z) :
  n < 0 \/ runtime.maxAlloc < elemsize * n -> runtime.fits elemsize n = false.
Proof.
  intros H. unfold runtime.fits.
  destruct (Z.ltb_spec n 0); [ reflexivity | ].
  destruct (Z.ltb_spec runtime.maxAlloc (elemsize * n)); [ reflexivity | lia ].
Qed.

Lemma makeslice_nil {A : Type} (elemsize cap : Z) (vs : list A) :
  makeslice elemsize cap = Some vs -> vs = [].
Proof.
  unfold makeslice. destruct (runtime.fits elemsize cap); [ | discriminate ].
  intros [= <-]. reflexivity.
Qed.

Lemma int_double_negative (n : Z) :
  2 ^ 62 <= n < 2 ^ 63 -> GoInt.int (n * 2) < 0.
Proof.
  intros H. unfold GoInt.int, GoInt.wrap.
  change (2 ^ (64 - 1)) with (2 ^ 63). change (2 ^ 64) with (2 * 2 ^ 63).
  change (2 ^ 62) with 4611686018427387904 in H.
  change (2 ^ 63) with 9223372036854775808 in *.
  assert (E : (n * 2 + 9223372036854775808) mod (2 * 9223372036854775808)
              = n * 2 - 9223372036854775808).
  { symmetry. apply (Z.mod_unique_pos _ _ 1); lia. }
  rewrite E. lia.
Qed.

(** The capacity [numSegments*2] of [CircleToPolygon], in vertices of
    8 bytes, passes the check of [make] exactly up to 2^44 segments. *)
Lemma cap_fits_intro (n : Z) :
  0 <= n -> 16 * n <= runtime.maxAlloc ->
  runtime.fits 8 (GoInt.int (n * 2)) = true.
Proof.
  intros Hn Hm. unfold runtime.maxAlloc in Hm.
  change (2 ^ 48) with 281474976710656 in Hm.
  rewrite int_small by (change (2 ^ 63) with 9223372036854775808; lia).
  apply fits_true; [ lia | ].
  unfold runtime.maxAlloc. change (2 ^ 48) with 281474976710656. lia.
Qed.

Lemma cap_fits_elim (n : Z) :
  0 <= n < 2 ^ 63 ->
  runtime.fits 8 (GoInt.int (n * 2)) = true ->
  16 * n <= runtime.maxAlloc.
Proof.
  intros Hn Hf.
  destruct (Z_lt_le_dec n (2 ^ 62)) as [Hlt | Hge].
  - rewrite int_small in Hf
      by (change (2 ^ 63) with 9223372036854775808;
          change (2 ^ 62) with 4611686018427387904 in Hlt; lia).
    unfold runtime.fits in Hf.
    destruct (Z.ltb_spec (n * 2) 0); [ discriminate Hf | ].
    destruct (Z.ltb_spec runtime.maxAlloc (8 * (n * 2))); [ discriminate Hf | lia ].
  - rewrite fits_false in Hf; [ discriminate Hf | ].
    left. apply int_double_negative. lia.
Qed.

(** ** CircleToPolygon *)

Section CircleToPolygonFacts.
Variables Sin Cos : F64.t -> F64.t.

Lemma polygon_loop_length n rotation center point vertices :
  length (polygon_loop n rotation center point vertices) = (length vertices + n)%nat.
Proof.
  revert point vertices. induction n as [ | n IH]; intros point vertices; simpl.
  - lia.
  - rewrite IH, length_app. simpl. lia.
Qed.

(** The vertices are the start point turned 0, 1, ..., [n - 1] times
    by [rotation], each moved by [center]. *)
Lemma polygon_loop_vertices n rotation center : forall point vertices,
  polygon_loop n rotation center point vertices =
  vertices ++ map (fun k => Add (Nat.iter k (Mul2x1 rotation) point) center) (seq 0 n).
Proof.
  induction n as [ | n IH]; intros point vertices.
  - simpl. rewrite app_nil_r. reflexivity.
  - cbn [polygon_loop]. rewrite IH, <- app_assoc. f_equal.
    cbn [seq map app Nat.iter]. f_equal.
    rewrite <- seq_shift, map_map. apply map_ext. intros k.
    rewrite Nat.iter_succ_r. reflexivity.
Qed.

(** Past the two guards the call returns one vertex per segment, as
    long as the [numSegments*2] vertices of 8 bytes that [make] is
    asked for are within the allocation limit. *)
Lemma CircleToPolygon_count center radius numSegments startAngle :
  F32.leb radius F32.zero = false ->
  3 <= numSegments -> 16 * numSegments <= runtime.maxAlloc ->
  exists vertices,
    CircleToPolygon Sin Cos center radius numSegments startAngle = Ok vertices
    /\ Z.of_nat (length vertices) = numSegments.
Proof.
  intros Hr Hn Hm. unfold CircleToPolygon. rewrite Hr.
  destruct (Z.ltb_spec numSegments 3) as [ | _]; [ lia | ].
  unfold makeslice. rewrite cap_fits_intro by lia.
  eexists. split; [ reflexivity | ].
  rewrite polygon_loop_length. simpl length. lia.
Qed.


(** With 2^45 segments the capacity is an [int], but its 2^49 bytes
    are more than the runtime allocates. *)
Lemma CircleToPolygon_cap_too_large center startAngle :
  CircleToPolygon Sin Cos center (F32.of_int 1) (2 ^ 45) startAngle
  = Panic "runtime error: makeslice: cap out of range".
Proof. reflexivity. Qed.

(** Where [math.Sin(0)] is 0 and [math.Cos(0)] is 1, as they are in Go,
    the start point for the angle 0 is [(radius, 0)]; with the largest
    finite [float32] as radius and as X of the center, the addition of
    the center overflows: the first vertex of the triangle is at
    [+Inf], at no finite distance from the center. *)
Lemma CircleToPolygon_vertex_overflow :
  Sin (S754_zero false) = S754_zero false ->
  Cos (S754_zero false) = mgl64.one ->
  exists v vertices,
    CircleToPolygon Sin Cos (mkVec2 math.MaxFloat32 F32.zero) math.MaxFloat32 3 F32.zero
    = Ok (v :: vertices)
    /\ v = mkVec2 (S754_infinity false) F32.zero.
Proof.
  intros Hsin Hcos. unfold CircleToPolygon.
  change (F32.leb math.MaxFloat32 F32.zero) with false.
  change (3 <? 3) with false.
  change (makeslice 8 (GoInt.int (3 * 2))) with (Some (@nil Vec2)).
  cbv beta iota.
  change (Z.to_nat 3) with 3%nat. cbn [polygon_loop app].
  unfold Rotate2D, F32.zero, F64.of_float32. rewrite Hsin, Hcos.
  do 2 eexists. split; [ reflexivity | ].
  vm_compute. reflexivity.
Qed.

End CircleToPolygonFacts.





(** C5: [CircleToPolygon] returns an error and no vertex list exactly
    when [radius <= 0] or [numSegments < 3]; so it does for radius -1
    with 3 segments and for radius 1 with 2 segments. *)
Theorem CircleToPolygon_invalid_argument :
  (forall Sin Cos center radius numSegments startAngle,
      (exists e, CircleToPolygon Sin Cos center radius numSegments startAngle = Err e)
      <-> (F32.leb radius F32.zero = true \/ numSegments < 3))
  /\ (forall Sin Cos center startAngle,
        exists e, CircleToPolygon Sin Cos center (F32.of_int (-1)) 3 startAngle = Err e)
  /\ (forall Sin Cos center startAngle,
        exists e, CircleToPolygon Sin Cos center (F32.of_int 1) 2 startAngle = Err e).
Proof.
  split; [ | split ].
  - intros Sin Cos center radius numSegments startAngle.
    unfold CircleToPolygon.
    destruct (F32.leb radius F32.zero) eqn:Hr.
    + split; [ auto | eauto ].
    + destruct (Z.ltb_spec numSegments 3) as [Hn | Hn].
      * split; [ auto | eauto ].
      * split.
        -- intros [e He]. destruct (makeslice _); discriminate He.
        -- intros [H | H]; [ discriminate H | lia ].
  - intros. eexists. reflexivity.
  - intros. eexists. reflexivity.
Qed.

(** ** GetBoundingBox *)

Lemma bbox_fold_fields (points : list Vec2) (st : extremes) :
  fold_left bbox_step points st =
  mkExtremes (run_min (minX st) (map X points)) (run_min (minY st) (map Y points))
             (run_max (maxX st) (map X points)) (run_max (maxY st) (map Y points)).
Proof.
  revert st. induction points as [ | p points IH]; intros st.
  - destruct st; reflexivity.
  - simpl fold_left. rewrite IH. reflexivity.
Qed.

Lemma run_min_spec (xs : list F32.t) : forall m,
  shape m = true -> (forall x, In x xs -> shape x = true) ->
  shape (run_min m xs) = true
  /\ SFleb (run_min m xs) m = true
  /\ (forall x, In x xs -> SFleb (run_min m xs) x = true)
  /\ (run_min m xs = m \/ In (run_min m xs) xs).
Proof.
  induction xs as [ | x xs IH]; intros m Hm Hxs.
  - simpl. repeat split; auto using SFleb_refl.
  - assert (Hx : shape x = true) by (apply Hxs; left; reflexivity).
    assert (Hxs' : forall y, In y xs -> shape y = true)
      by (intros y Hy; apply Hxs; right; exact Hy).
    unfold run_min. simpl fold_left. fold (run_min (if F32.ltb x m then x else m) xs).
    unfold F32.ltb.
    destruct (SFltb x m) eqn:Hlt.
    + destruct (IH x Hx Hxs') as (Hs & Hle & Hall & Hin).
      split; [ exact Hs | ].
      split; [ apply (SFleb_ltb_trans _ x m); auto | ].
      split.
      * intros y [<- | Hy]; [ exact Hle | apply Hall, Hy ].
      * right. destruct Hin as [-> | Hin]; [ left; reflexivity | right; exact Hin ].
    + destruct (IH m Hm Hxs') as (Hs & Hle & Hall & Hin).
      split; [ exact Hs | ].
      split; [ exact Hle | ].
      split.
      * intros y [<- | Hy]; [ | apply Hall, Hy ].
        apply (SFleb_trans _ m x); auto using SFltb_false_leb.
      * destruct Hin as [-> | Hin]; [ left; reflexivity | right; right; exact Hin ].
Qed.

Lemma run_max_spec (xs : list F32.t) : forall m,
  shape m = true -> (forall x, In x xs -> shape x = true) ->
  shape (run_max m xs) = true
  /\ SFleb m (run_max m xs) = true
  /\ (forall x, In x xs -> SFleb x (run_max m xs) = true)
  /\ (run_max m xs = m \/ In (run_max m xs) xs).
Proof.
  induction xs as [ | x xs IH]; intros m Hm Hxs.
  - simpl. repeat split; auto using SFleb_refl.
  - assert (Hx : shape x = true) by (apply Hxs; left; reflexivity).
    assert (Hxs' : forall y, In y xs -> shape y = true)
      by (intros y Hy; apply Hxs; right; exact Hy).
    unfold run_max. simpl fold_left. fold (run_max (if F32.gtb x m then x else m) xs).
    unfold F32.gtb.
    destruct (SFltb m x) eqn:Hlt.
    + destruct (IH x Hx Hxs') as (Hs & Hle & Hall & Hin).
      split; [ exact Hs | ].
      split; [ apply (SFltb_leb_trans _ x); auto | ].
      split.
      * intros y [<- | Hy]; [ exact Hle | apply Hall, Hy ].
      * right. destruct Hin as [-> | Hin]; [ left; reflexivity | right; exact Hin ].
    + destruct (IH m Hm Hxs') as (Hs & Hle & Hall & Hin).
      split; [ exact Hs | ].
      split; [ exact Hle | ].
      split.
      * intros y [<- | Hy]; [ | apply Hall, Hy ].
        apply (SFleb_trans _ m); auto using SFltb_false_leb.
      * destruct Hin as [-> | Hin]; [ left; reflexivity | right; right; exact Hin ].
Qed.

(** Started from [math.MaxFloat32], the running minimum of a non-empty
    list of finite numbers is one of them. *)
Lemma run_min_attained (xs : list F32.t) :
  xs <> [] -> (forall x, In x xs -> F32.is_finite x = true) ->
  (forall x, In x xs -> SFleb (run_min math.MaxFloat32 xs) x = true)
  /\ In (run_min math.MaxFloat32 xs) xs.
Proof.
  intros Hne Hfin.
  destruct (run_min_spec xs math.MaxFloat32) as (Hs & _ & Hall & Hin);
    [ reflexivity | auto using is_finite_shape | ].
  split; [ exact Hall | ].
  destruct Hin as [Heq | Hin]; [ | exact Hin ].
  destruct xs as [ | x xs]; [ congruence | ].
  assert (Hx : In x (x :: xs)) by (left; reflexivity).
  specialize (Hall x Hx). rewrite Heq in Hall |- *.
  apply SFleb_ltb_false in Hall; auto using is_finite_shape.
  apply not_below_max in Hall; auto.
  rewrite <- Hall. exact Hx.
Qed.

Lemma run_max_attained (xs : list F32.t) :
  xs <> [] -> (forall x, In x xs -> F32.is_finite x = true) ->
  (forall x, In x xs -> SFleb x (run_max (F32.neg math.MaxFloat32) xs) = true)
  /\ In (run_max (F32.neg math.MaxFloat32) xs) xs.
Proof.
  intros Hne Hfin.
  destruct (run_max_spec xs (F32.neg math.MaxFloat32)) as (Hs & _ & Hall & Hin);
    [ reflexivity | auto using is_finite_shape | ].
  split; [ exact Hall | ].
  destruct Hin as [Heq | Hin]; [ | exact Hin ].
  destruct xs as [ | x xs]; [ congruence | ].
  assert (Hx : In x (x :: xs)) by (left; reflexivity).
  specialize (Hall x Hx). rewrite Heq in Hall |- *.
  apply SFleb_ltb_false in Hall; auto using is_finite_shape.
  apply not_above_min in Hall; auto.
  rewrite <- Hall. exact Hx.
Qed.

(** C6: on the empty list [GetBoundingBox] returns the two sentinels:
    min = (+MaxFloat32, +MaxFloat32) and max = (-MaxFloat32, -MaxFloat32). *)
Theorem GetBoundingBox_empty :
  GetBoundingBox [] =
  (mkVec2 math.MaxFloat32 math.MaxFloat32,
   mkVec2 (F32.neg math.MaxFloat32) (F32.neg math.MaxFloat32)).
Proof. reflexivity. Qed.

(** C9: for a non-empty list of points with finite coordinates the box
    returned by [GetBoundingBox] contains every point, and each of its
    four coordinates is the coordinate of some point of the list. *)
Theorem GetBoundingBox_bounds (points : list Vec2) :
  points <> [] ->
  (forall p, In p points ->
     F32.is_finite (X p) = true /\ F32.is_finite (Y p) = true) ->
  (forall p, In p points ->
     F32.leb (X (fst (GetBoundingBox points))) (X p) = true
     /\ F32.leb (X p) (X (snd (GetBoundingBox points))) = true
     /\ F32.leb (Y (fst (GetBoundingBox points))) (Y p) = true
     /\ F32.leb (Y p) (Y (snd (GetBoundingBox points))) = true)
  /\ (exists p, In p points /\ X p = X (fst (GetBoundingBox points)))
  /\ (exists p, In p points /\ Y p = Y (fst (GetBoundingBox points)))
  /\ (exists p, In p points /\ X p = X (snd (GetBoundingBox points)))
  /\ (exists p, In p points /\ Y p = Y (snd (GetBoundingBox points))).
Proof.
  intros Hne Hfin.
  unfold GetBoundingBox. rewrite bbox_fold_fields. cbn [fst snd X Y minX minY maxX maxY bbox_init].
  assert (HneX : map X points <> []) by (destruct points; [ congruence | discriminate ]).
  assert (HneY : map Y points <> []) by (destruct points; [ congruence | discriminate ]).
  assert (HfX : forall x, In x (map X points) -> F32.is_finite x = true).
  { intros x Hx. apply in_map_iff in Hx as (p & <- & Hp). apply Hfin, Hp. }
  assert (HfY : forall y, In y (map Y points) -> F32.is_finite y = true).
  { intros y Hy. apply in_map_iff in Hy as (p & <- & Hp). apply Hfin, Hp. }
  destruct (run_min_attained _ HneX HfX) as [HminX HinMinX].
  destruct (run_min_attained _ HneY HfY) as [HminY HinMinY].
  destruct (run_max_attained _ HneX HfX) as [HmaxX HinMaxX].
  destruct (run_max_attained _ HneY HfY) as [HmaxY HinMaxY].
  unfold F32.leb.
  split.
  - intros p Hp. repeat split.
    + apply HminX, in_map, Hp.
    + apply HmaxX, in_map, Hp.
    + apply HminY, in_map, Hp.
    + apply HmaxY, in_map, Hp.
  - repeat split.
    + apply in_map_iff in HinMinX as (p & Hp & Hin). exists p; auto.
    + apply in_map_iff in HinMinY as (p & Hp & Hin). exists p; auto.
    + apply in_map_iff in HinMaxX as (p & Hp & Hin). exists p; auto.
    + apply in_map_iff in HinMaxY as (p & Hp & Hin). exists p; auto.
Qed.

(** The box of (1,2), (3,0), (-1,5) is min = (-1,0), max = (3,5). *)
Example GetBoundingBox_sample :
  GetBoundingBox sample_points =
  (mkVec2 (F32.of_int (-1)) (F32.of_int 0), mkVec2 (F32.of_int 3) (F32.of_int 5)).
Proof. vm_compute. reflexivity. Qed.

Lemma GetBoundingBox_bounds_witness :
  sample_points <> []
  /\ (forall p, In p sample_points ->
        F32.is_finite (X p) = true /\ F32.is_finite (Y p) = true)
  /\ (exists p, In p sample_points
        /\ X p = X (fst (GetBoundingBox sample_points))).
Proof.
  assert (Hne : sample_points <> []) by discriminate.
  assert (Hfin : forall p, In p sample_points ->
            F32.is_finite (X p) = true /\ F32.is_finite (Y p) = true).
  { intros p [<- | [<- | [<- | []]]]; split; vm_compute; reflexivity. }
  split; [ exact Hne | ].
  split; [ exact Hfin | ].
  exact (proj1 (proj2 (GetBoundingBox_bounds sample_points Hne Hfin))).
Defined.

(** ** Mat4From64to32Bits *)

(** C10: [Mat4From64to32Bits] converts each of the 16 elements to
    [float32] in place, and it maps the [float64] identity matrix to the
    [float32] identity matrix. *)
Theorem Mat4From64to32Bits_elementwise :
  (forall (mat : mgl64.Mat4) (i : fin 16),
      Mat4From64to32Bits mat !!! i = F32.of_float64 (mat !!! i))
  /\ Mat4From64to32Bits mgl64.Ident4 = mgl32.Ident4.
Proof.
  split; [ | reflexivity ].
  intros mat i.
  repeat (inv_fin i; [ reflexivity | intros i ]).
  inv_fin i.
Qed.

(** ** The texture constructors *)

Lemma new_texture_eq (bounds : image.Rectangle) (w : World) :
  new_texture bounds w = Returned (fresh_ptr w) (prepared bounds w).
Proof.
  unfold new_texture, bind, alloc, gl_GenTextures, load, store, gl_call, ret.
  cbn [gl.GenTextures heap gl_state stdout open_files].
  fold (fresh_ptr w).
  rewrite lookup_insert_eq. cbn [heap gl_state stdout open_files width height].
  rewrite lookup_insert_eq. cbn [id].
  rewrite insert_insert_eq. reflexivity.
Qed.

Lemma upload_prepared bounds internalformat format pix w :
  upload (fresh_ptr w) internalformat format pix (prepared bounds w) =
  match pix with
  | [] => Panicked "reflect: slice index out of range" (prepared bounds w)
  | _ :: _ => Returned tt (uploaded bounds internalformat format pix w)
  end.
Proof.
  unfold upload, bind, load, gl_Ptr, gl_call, prepared. cbn [heap].
  rewrite lookup_insert_eq. destruct pix; reflexivity.
Qed.

(** The upload, the unbinding and the return of [v]. *)
Lemma upload_and_return {A : Type} (v : A) bounds internalformat format pix w :
  (upload (fresh_ptr w) internalformat format pix >>
   gl_call (gl.BindTexture gl.TEXTURE_2D 0) >> ret v) (prepared bounds w)
  = completed v bounds internalformat format pix w.
Proof.
  unfold bind. rewrite upload_prepared. destruct pix; reflexivity.
Qed.

Lemma completed_inv {A : Type} (v r : A) bounds internalformat format pix w w' :
  completed v bounds internalformat format pix w = Returned r w' ->
  r = v /\ w' = finished bounds internalformat format pix w /\ pix <> [].
Proof.
  unfold completed. destruct pix; [ discriminate | ].
  intros [= <- <-]. repeat split. discriminate.
Qed.

Lemma completed_nonempty {A : Type} (v : A) bounds internalformat format pix w :
  pix <> [] ->
  completed v bounds internalformat format pix w
  = Returned v (finished bounds internalformat format pix w).
Proof. destruct pix; [ congruence | reflexivity ]. Qed.

Lemma on_bound_bound target f target' st :
  gl.bound target' (gl.on_bound target f st) = gl.bound target' st.
Proof. reflexivity. Qed.

Lemma bound_BindTexture target name st :
  gl.bound target (gl.BindTexture target name st) = name.
Proof.
  unfold gl.bound, gl.BindTexture. cbn [gl.bindings gl.active].
  rewrite lookup_insert_eq. reflexivity.
Qed.

Lemma configured_bound st :
  gl.bound gl.TEXTURE_2D (configured st) = gl.next_name st.
Proof.
  unfold configured, gl.TexParameteri.
  rewrite !on_bound_bound. apply bound_BindTexture.
Qed.

(** Runs a constructor up to the end of [new_texture]. *)
Ltac enter_constructor :=
  unfold bind at 1; rewrite new_texture_eq; cbv beta iota.

Lemma bind_ret {A B : Type} (a : A) (k : A -> M B) (w : World) :
  bind (ret a) k w = k a w.
Proof. reflexivity. Qed.

(** The same for [NewTextureFromImage] on an image that has bounds. *)
Ltac enter_image_constructor :=
  unfold NewTextureFromImage; cbn [image_Bounds image.Bounds];
  rewrite bind_ret; enter_constructor.

Section Constructors.
Context `{lib : image.Lib}.

Lemma switch_upload (texture : ptr) bounds internalformat format pix w :
  texture = fresh_ptr w ->
  (let* sw := upload texture internalformat format pix >> ret FallThrough in
   match sw with
   | Return v => ret v
   | FallThrough => gl_call (gl.BindTexture gl.TEXTURE_2D 0) >> ret (Some texture)
   end) (prepared bounds w)
  = completed (Some texture) bounds internalformat format pix w.
Proof.
  intros ->. unfold bind. rewrite upload_prepared. destruct pix; reflexivity.
Qed.

Lemma NewTextureFromImage_Nil (w : World) :
  NewTextureFromImage image.Nil w = Panicked nil_dereference w.
Proof. reflexivity. Qed.

Lemma NewTextureFromImage_NRGBA (r : image.Raster) (w : World) :
  NewTextureFromImage (image.NRGBA r) w =
  completed (Some (fresh_ptr w)) (image.Rect r) gl.RGBA gl.RGBA (image.Pix r) w.
Proof.
  enter_image_constructor.
  apply switch_upload. reflexivity.
Qed.

Lemma NewTextureFromImage_Gray16 (r g : image.Raster) (w : World) :
  image.NewGray (image.Rect r) = Some g ->
  NewTextureFromImage (image.Gray16 r) w =
  if image.Stride g =? GoInt.int (image.PX (image.Size (image.Rect g)) * 1)
  then completed (Some (fresh_ptr w)) (image.Rect r) gl.RED gl.RED
         (image.Pix (image.DrawGray g (image.Rect g) (image.Gray16 r)
                                    (image.mkPoint 0 0))) w
  else Returned None (refused (image.Rect r) w).
Proof.
  intros Hg. enter_image_constructor. rewrite Hg.
  destruct (image.Stride g =? _); cbn [negb].
  - apply switch_upload. reflexivity.
  - reflexivity.
Qed.

Lemma NewTextureFromImage_Other bounds At (g : image.Raster) (w : World) :
  image.NewRGBA bounds = Some g ->
  NewTextureFromImage (image.Other bounds At) w =
  if image.Stride g =? GoInt.int (image.PX (image.Size (image.Rect g)) * 4)
  then completed (Some (fresh_ptr w)) bounds gl.RGBA gl.RGBA
         (image.Pix (image.DrawRGBA g (image.Rect g) (image.Other bounds At)
                                    (image.mkPoint 0 0))) w
  else Returned None (refused bounds w).
Proof.
  intros Hg. enter_image_constructor. rewrite Hg.
  destruct (image.Stride g =? _); cbn [negb].
  - apply switch_upload. reflexivity.
  - reflexivity.
Qed.

(** When the allocator of a conversion path panics, so does the call,
    with the value of the allocator, after [new_texture]. *)
Lemma NewTextureFromImage_Gray16_none (r : image.Raster) (w : World) :
  image.NewGray (image.Rect r) = None ->
  NewTextureFromImage (image.Gray16 r) w
  = Panicked (image.NewGray_panic (image.Rect r)) (prepared (image.Rect r) w).
Proof. intros Hg. enter_image_constructor. rewrite Hg. reflexivity. Qed.

Lemma NewTextureFromImage_Other_none bounds At (w : World) :
  image.NewRGBA bounds = None ->
  NewTextureFromImage (image.Other bounds At) w
  = Panicked (image.NewRGBA_panic bounds) (prepared bounds w).
Proof. intros Hg. enter_image_constructor. rewrite Hg. reflexivity. Qed.

Lemma NewTextureFromImage_alloc_panics (imageData : image.Image) (w : World) :
  match imageData with
  | image.Gray16 _ => image.NewGray (image.Bounds imageData) = None
  | image.NRGBA _ => False
  | image.Other _ _ => image.NewRGBA (image.Bounds imageData) = None
  | image.Nil => False
  end ->
  exists why, NewTextureFromImage imageData w
              = Panicked why (prepared (image.Bounds imageData) w).
Proof.
  destruct imageData as [r | r | bounds At | ]; intros H.
  - eexists. apply NewTextureFromImage_Gray16_none, H.
  - destruct H.
  - eexists. apply NewTextureFromImage_Other_none, H.
  - destruct H.
Qed.

(** What a return of [NewTextureFromImage] looks like: the texture
    and the world of a completed upload, or nil and the world of a
    stride failure. *)
Lemma NewTextureFromImage_returns imageData w r w' :
  NewTextureFromImage imageData w = Returned r w' ->
  (exists internalformat format pix,
      r = Some (fresh_ptr w)
      /\ w' = finished (image.Bounds imageData) internalformat format pix w)
  \/ (r = None /\ w' = refused (image.Bounds imageData) w).
Proof.
  destruct imageData as [ras | ras | bounds At | ].
  - destruct (image.NewGray (image.Rect ras)) as [g | ] eqn:Hg.
    + rewrite (NewTextureFromImage_Gray16 _ _ _ Hg).
      destruct (image.Stride g =? _).
      * intros H. apply completed_inv in H as (-> & -> & _). left. eauto.
      * intros [= <- <-]. right. split; reflexivity.
    + rewrite (NewTextureFromImage_Gray16_none _ _ Hg). discriminate.
  - rewrite NewTextureFromImage_NRGBA.
    intros H. apply completed_inv in H as (-> & -> & _). left. eauto.
  - destruct (image.NewRGBA bounds) as [g | ] eqn:Hg.
    + rewrite (NewTextureFromImage_Other _ At _ _ Hg).
      destruct (image.Stride g =? _).
      * intros H. apply completed_inv in H as (-> & -> & _). left. eauto.
      * intros [= <- <-]. right. split; reflexivity.
    + rewrite (NewTextureFromImage_Other_none _ At _ Hg). discriminate.
  - rewrite NewTextureFromImage_Nil. discriminate.
Qed.

End Constructors.

(** *** The binding left behind *)

Lemma finished_unbound bounds internalformat format pix w :
  gl.bound gl.TEXTURE_2D (gl_state (finished bounds internalformat format pix w)) = 0.
Proof. unfold finished. cbn [gl_state]. apply bound_BindTexture. Qed.

Lemma refused_bound bounds w :
  gl.bound gl.TEXTURE_2D (gl_state (refused bounds w)) = gl.next_name (gl_state w).
Proof. unfold refused. cbn [gl_state]. apply configured_bound. Qed.

(** Every return with a texture leaves [TEXTURE_2D] unbound, and every
    return without one leaves the texture just generated bound. *)
Lemma NewTextureFromImage_binding `{lib : image.Lib} imageData w r w' :
  NewTextureFromImage imageData w = Returned r w' ->
  match r with
  | Some _ => gl.bound gl.TEXTURE_2D (gl_state w') = 0
  | None => gl.bound gl.TEXTURE_2D (gl_state w') = gl.next_name (gl_state w)
  end.
Proof.
  intros H.
  apply NewTextureFromImage_returns in H
    as [(internalformat & format & pix & -> & ->) | [-> ->]].
  - apply finished_unbound.
  - apply refused_bound.
Qed.

(** *** Stride failures *)

(** C3: on the 16-bit grayscale path and on the generic path, when the
    row stride of the converted buffer differs from its width times 1,
    resp. times 4, [NewTextureFromImage] returns nil (it does not panic)
    after printing the diagnostic. *)
Theorem NewTextureFromImage_unsupported_stride `{lib : image.Lib} :
  (forall (r g : image.Raster) (w : World),
      image.NewGray (image.Rect r) = Some g ->
      image.Stride g <> GoInt.int (image.PX (image.Size (image.Rect g)) * 1) ->
      exists w',
        NewTextureFromImage (image.Gray16 r) w = Returned None w'
        /\ stdout w' = stdout w ++ ["Error creating texture: unsupported stride" +:+ newline])
  /\ (forall bounds At (g : image.Raster) (w : World),
      image.NewRGBA bounds = Some g ->
      image.Stride g <> GoInt.int (image.PX (image.Size (image.Rect g)) * 4) ->
      exists w',
        NewTextureFromImage (image.Other bounds At) w = Returned None w'
        /\ stdout w' = stdout w ++ ["Error creating texture: unsupported stride" +:+ newline]).
Proof.
  split.
  - intros r g w Hg Hs. exists (refused (image.Rect r) w).
    rewrite (NewTextureFromImage_Gray16 _ _ _ Hg).
    apply Z.eqb_neq in Hs. rewrite Hs. split; reflexivity.
  - intros bounds At g w Hg Hs. exists (refused bounds w).
    rewrite (NewTextureFromImage_Other _ At _ _ Hg).
    apply Z.eqb_neq in Hs. rewrite Hs. split; reflexivity.
Qed.

Lemma NewTextureFromImage_unsupported_stride_witness :
  exists w',
    NewTextureFromImage (lib := image.padded_image no_draw no_draw) gray16_3x2 world0
    = Returned None w'
    /\ stdout w' = stdout world0 ++ ["Error creating texture: unsupported stride" +:+ newline].
Proof.
  apply (proj1 (NewTextureFromImage_unsupported_stride
                  (lib := image.padded_image no_draw no_draw))
           (image.mkRaster (repeat 0 12%nat) 6 (rect 0 0 3 2))
           (image.mkRaster (repeat 0 16%nat) 8 (rect 0 0 3 2))
           world0).
  - reflexivity.
  - vm_compute. discriminate.
Defined.

(** *** Loading from a file *)

(** C4: when the file opens and [image.Decode] fails,
    [NewTextureFromFile] returns nil without a panic; it prints the
    format name and the path, closes the file and leaves the OpenGL
    context and the heap as they were. *)
Theorem NewTextureFromFile_decode_failure `{lib : image.Lib} `{host : Host}
    (filePath : string) (file : File) (format err : string) (w : World) :
  os_Open filePath = inl file ->
  image_Decode file = image.DecodeErr format err ->
  NewTextureFromFile filePath w =
  Returned None
    (mkWorld (gl_state w) (heap w)
       (stdout w ++ ["Error decoding <" +:+ format +:+ "> image: '" +:+ filePath
                     +:+ "'" +:+ newline])
       (open_files w)).
Proof.
  intros Hopen Hdec. unfold NewTextureFromFile. rewrite Hopen, Hdec.
  reflexivity.
Qed.

Lemma NewTextureFromFile_decode_failure_witness :
  NewTextureFromFile (lib := image.go_image no_draw no_draw) (host := broken_host)
                     "broken.png" world0 =
  Returned None
    (mkWorld gl.init ∅ ["Error decoding <png> image: 'broken.png'" +:+ newline] 0).
Proof.
  apply (NewTextureFromFile_decode_failure
           (lib := image.go_image no_draw no_draw) (host := broken_host)
           "broken.png" [137; 80; 78; 71] "png" "unexpected EOF" world0);
    reflexivity.
Defined.

(** *** The fields of a texture *)

(** No method writes to the heap. *)
Lemma call_heap (m : method) (t : ptr) (w : World) :
  heap (final (call m t w)) = heap w.
Proof.
  destruct m; unfold call, Bind, Unbind, ID, Width, Height, bind, load, gl_call, ret;
    destruct (heap w !! t); reflexivity.
Qed.

Lemma calls_heap (ms : list method) (t : ptr) : forall w,
  heap (final (calls ms t w)) = heap w.
Proof.
  induction ms as [ | m ms IH]; intros w; [ reflexivity | ].
  cbn [calls]. unfold bind at 1.
  pose proof (call_heap m t w) as Hm.
  destruct (call m t w) as [[] w1 | why w1]; cbn [final] in Hm |- *.
  - rewrite IH. exact Hm.
  - exact Hm.
Qed.

(** C7: the width and height of a texture created from an image are
    the dimensions of the image's bounds converted to [int32], hence
    these dimensions themselves when they are within the range of
    [int32]; and no sequence of calls of [Bind], [Unbind], [ID], [Width]
    and [Height] changes the fields of any texture. *)
Theorem Texture_fields_fixed `{lib : image.Lib} :
  (forall imageData w p w',
      NewTextureFromImage imageData w = Returned (Some p) w' ->
      exists t,
        heap w' !! p = Some t
        /\ width t = GoInt.int32 (image.Dx (image.Bounds imageData))
        /\ height t = GoInt.int32 (image.Dy (image.Bounds imageData))
        /\ (GoInt.in_int32 (image.Dx (image.Bounds imageData)) ->
            width t = image.Dx (image.Bounds imageData))
        /\ (GoInt.in_int32 (image.Dy (image.Bounds imageData)) ->
            height t = image.Dy (image.Bounds imageData)))
  /\ (forall (ms : list method) (t : ptr) (w : World),
        heap (final (calls ms t w)) = heap w).
Proof.
  split; [ | intros; apply calls_heap ].
  intros imageData w p w' H.
  apply NewTextureFromImage_returns in H
    as [(internalformat & format & pix & [= ->] & ->) | [[=] _]].
  exists (created (image.Bounds imageData) w).
  split; [ apply lookup_insert_eq | ].
  cbn [created width height].
  repeat split; auto using int32_small.
Qed.

Lemma nrgba_4x4_created `{lib : image.Lib} :
  NewTextureFromImage nrgba_4x4 world0 =
  Returned (Some (fresh_ptr world0))
           (finished (rect 0 0 4 4) gl.RGBA gl.RGBA (repeat 255 64%nat) world0).
Proof. unfold nrgba_4x4. rewrite NewTextureFromImage_NRGBA. reflexivity. Qed.

Lemma Texture_fields_fixed_witness :
  exists t : Texture,
    heap (finished (rect 0 0 4 4) gl.RGBA gl.RGBA (repeat 255 64%nat) world0)
      !! fresh_ptr world0 = Some t
    /\ width t = 4 /\ height t = 4.
Proof.
  assert (Hnew :
    NewTextureFromImage (lib := image.go_image no_draw no_draw) nrgba_4x4 world0 =
    Returned (Some (fresh_ptr world0))
             (finished (rect 0 0 4 4) gl.RGBA gl.RGBA (repeat 255 64%nat) world0))
    by (vm_compute; reflexivity).
  destruct (proj1 (Texture_fields_fixed (lib := image.go_image no_draw no_draw))
              nrgba_4x4 world0 _ _ Hnew)
    as (t & Ht & Hw & Hh & _).
  exists t. split; [ exact Ht | ].
  split; [ rewrite Hw | rewrite Hh ]; reflexivity.
Defined.

(** The example of the specification: a 4 by 4 non-premultiplied image
    gives a texture of width 4, height 4 and a name other than 0. *)
Example NewTextureFromImage_4x4 :
  exists p w',
    NewTextureFromImage (lib := image.go_image no_draw no_draw) nrgba_4x4 world0
    = Returned (Some p) w'
    /\ Width p w' = Returned 4 w' /\ Height p w' = Returned 4 w'
    /\ ID p w' = Returned 1 w'.
Proof.
  do 2 eexists. split; [ apply nrgba_4x4_created | ].
  repeat split; vm_compute; reflexivity.
Qed.

Lemma repeat_nonempty {A : Type} (x : A) (n : Z) : 0 < n -> repeat x (Z.to_nat n) <> [].
Proof.
  intros Hn. destruct (Z.to_nat n) eqn:E; [ lia | discriminate ].
Qed.

Lemma nrgba_wide_width `{lib : image.Lib} (pix : list Z) :
  pix <> [] ->
  exists p w' t,
    NewTextureFromImage (nrgba_wide pix) world0 = Returned (Some p) w'
    /\ heap w' !! p = Some t
    /\ image.Dx (image.Bounds (nrgba_wide pix)) = 2147483648
    /\ width t = -2147483648
    /\ width t <> image.Dx (image.Bounds (nrgba_wide pix)).
Proof.
  intros Hpix.
  exists (fresh_ptr world0),
         (finished wide_rect gl.RGBA gl.RGBA pix world0),
         (created wide_rect world0).
  split.
  { unfold nrgba_wide. rewrite NewTextureFromImage_NRGBA.
    apply completed_nonempty, Hpix. }
  split; [ apply lookup_insert_eq | ].
  assert (Hdx : image.Dx wide_rect = 2147483648) by (vm_compute; reflexivity).
  assert (Hw : GoInt.int32 2147483648 = -2147483648) by (vm_compute; reflexivity).
  cbn [nrgba_wide image.Bounds image.Rect created width].
  rewrite Hdx, Hw. repeat split. discriminate.
Qed.

(** The width of the texture of an image 2^31 pixels wide, of 2^33
    bytes, is -2^31. *)
Lemma Texture_width_wraps :
  exists p w' t,
    NewTextureFromImage (lib := image.go_image no_draw no_draw)
                        (nrgba_wide (repeat 0 (Z.to_nat 8589934592))) world0
    = Returned (Some p) w'
    /\ heap w' !! p = Some t
    /\ image.Dx (image.Bounds (nrgba_wide (repeat 0 (Z.to_nat 8589934592)))) = 2147483648
    /\ width t = -2147483648
    /\ width t <> image.Dx (image.Bounds (nrgba_wide (repeat 0 (Z.to_nat 8589934592)))).
Proof.
  apply (nrgba_wide_width (repeat 0 (Z.to_nat 8589934592))).
  apply repeat_nonempty. reflexivity.
Qed.

(** *** NewEmptyTexture *)

Lemma NewEmptyTexture_eq `{lib : image.Lib} width height pixelFormat imageData w :
  image.NewRGBA (rect 0 0 width height) = Some imageData ->
  NewEmptyTexture width height pixelFormat w =
  completed (Some (fresh_ptr w), None) (image.Rect imageData) pixelFormat
            (GoInt.uint32 pixelFormat) (image.Pix imageData) w.
Proof.
  intros H. unfold NewEmptyTexture. fold (rect 0 0 width height). rewrite H.
  enter_constructor. apply upload_and_return.
Qed.

Lemma Dx_origin (w h : Z) : - 2 ^ 63 <= w < 2 ^ 63 -> image.Dx (rect 0 0 w h) = w.
Proof.
  intros H. unfold image.Dx, rect. cbn [image.Max image.Min image.PX].
  rewrite Z.sub_0_r. apply int_small, H.
Qed.

Lemma Dy_origin (w h : Z) : - 2 ^ 63 <= h < 2 ^ 63 -> image.Dy (rect 0 0 w h) = h.
Proof.
  intros H. unfold image.Dy, rect. cbn [image.Max image.Min image.PY].
  rewrite Z.sub_0_r. apply int_small, H.
Qed.

Lemma mul3NonNeg_ok (x y z : Z) :
  0 <= x -> 0 <= y -> 0 <= z -> x * y < 2 ^ 64 -> x * y * z < 2 ^ 63 ->
  image.mul3NonNeg x y z = x * y * z.
Proof.
  intros Hx Hy Hz Hxy Hxyz. unfold image.mul3NonNeg.
  change (2 ^ 64) with 18446744073709551616 in *.
  change (2 ^ 63) with 9223372036854775808 in *.
  destruct (Z.ltb_spec x 0); [ lia | ].
  destruct (Z.ltb_spec y 0); [ lia | ].
  destruct (Z.ltb_spec z 0); [ lia | ]. cbn [orb].
  destruct (Z.leb_spec 18446744073709551616 (x * y)); [ lia | ].
  destruct (Z.leb_spec 18446744073709551616 (x * y * z)); [ lia | ].
  destruct (Z.leb_spec 9223372036854775808 (x * y * z)); [ lia | reflexivity ].
Qed.

Lemma mul3NonNeg_negative (x y z : Z) :
  x < 0 \/ y < 0 \/ z < 0 -> image.mul3NonNeg x y z = -1.
Proof.
  intros H. unfold image.mul3NonNeg.
  destruct (Z.ltb_spec x 0); [ reflexivity | ].
  destruct (Z.ltb_spec y 0); [ reflexivity | ].
  destruct (Z.ltb_spec z 0); [ reflexivity | lia ].
Qed.

(** What [mul3NonNeg] returns other than -1 is the product. *)
Lemma mul3NonNeg_product (x y z : Z) :
  image.mul3NonNeg x y z <> -1 ->
  image.mul3NonNeg x y z = x * y * z /\ 0 <= x * y * z.
Proof.
  unfold image.mul3NonNeg.
  destruct (Z.ltb_spec x 0); [ intros []; reflexivity | ].
  destruct (Z.ltb_spec y 0); [ intros []; reflexivity | ].
  destruct (Z.ltb_spec z 0); [ intros []; reflexivity | ]. cbn [orb].
  destruct (2 ^ 64 <=? x * y); [ intros []; reflexivity | ].
  destruct (2 ^ 64 <=? x * y * z); [ intros []; reflexivity | ].
  destruct (2 ^ 63 <=? x * y * z); [ intros []; reflexivity | ].
  intros _. split; [ reflexivity | nia ].
Qed.

(** Go's allocator succeeds on non-negative dimensions whose buffer is
    within the allocation limit. *)
Lemma go_alloc_ok (bytesPerPixel : Z) (r : image.Rectangle) :
  0 <= bytesPerPixel -> 0 <= image.Dx r -> 0 <= image.Dy r ->
  bytesPerPixel * image.Dx r < 2 ^ 64 ->
  bytesPerPixel * image.Dx r * image.Dy r <= runtime.maxAlloc ->
  image.go_alloc bytesPerPixel r =
  Some (image.mkRaster
          (repeat 0 (Z.to_nat (bytesPerPixel * image.Dx r * image.Dy r)))
          (GoInt.int (bytesPerPixel * image.Dx r)) r).
Proof.
  intros Hb Hx Hy Hrow Hn. unfold image.go_alloc, image.pixelBufferLength.
  assert (Hm : runtime.maxAlloc < 2 ^ 63) by reflexivity.
  rewrite mul3NonNeg_ok by (assumption || lia).
  destruct (Z.ltb_spec (bytesPerPixel * image.Dx r * image.Dy r) 0); [ nia | ].
  rewrite fits_true by lia. reflexivity.
Qed.

(** Go's allocator panics on a negative dimension, in
    [pixelBufferLength]. *)
Lemma pixelBufferLength_negative (bytesPerPixel : Z) (r : image.Rectangle) :
  image.Dx r < 0 \/ image.Dy r < 0 -> image.pixelBufferLength bytesPerPixel r = None.
Proof.
  intros H. unfold image.pixelBufferLength.
  rewrite mul3NonNeg_negative by tauto. reflexivity.
Qed.

Lemma go_alloc_negative (bytesPerPixel : Z) (r : image.Rectangle) :
  image.Dx r < 0 \/ image.Dy r < 0 -> image.go_alloc bytesPerPixel r = None.
Proof.
  intros H. unfold image.go_alloc.
  rewrite pixelBufferLength_negative by exact H. reflexivity.
Qed.

Lemma object_on_bound target f st :
  gl.object (gl.bound target st) (gl.on_bound target f st)
  = f (gl.object (gl.bound target st) st).
Proof.
  unfold gl.object at 1, gl.on_bound. cbn [gl.objects].
  rewrite lookup_insert_eq. reflexivity.
Qed.

Lemma finished_image bounds internalformat format pix w :
  gl.image (gl.object (gl.next_name (gl_state w))
                      (gl_state (finished bounds internalformat format pix w)))
  = Some (gl.mkTexImage 0 internalformat
            (GoInt.int32 (image.Dx bounds)) (GoInt.int32 (image.Dy bounds))
            0 format gl.UNSIGNED_BYTE pix).
Proof.
  unfold finished, uploaded. cbn [gl_state].
  change (gl.object (gl.next_name (gl_state w))
            (gl.BindTexture gl.TEXTURE_2D 0 ?st))
    with (gl.object (gl.next_name (gl_state w)) st).
  rewrite <- (configured_bound (gl_state w)).
  unfold gl.TexImage2D. rewrite object_on_bound. reflexivity.
Qed.

Lemma finished_fields bounds internalformat format pix w :
  Width (fresh_ptr w) (finished bounds internalformat format pix w)
  = Returned (GoInt.int32 (image.Dx bounds)) (finished bounds internalformat format pix w)
  /\ Height (fresh_ptr w) (finished bounds internalformat format pix w)
     = Returned (GoInt.int32 (image.Dy bounds)) (finished bounds internalformat format pix w)
  /\ ID (fresh_ptr w) (finished bounds internalformat format pix w)
     = Returned (gl.next_name (gl_state w)) (finished bounds internalformat format pix w).
Proof.
  unfold Width, Height, ID, bind, load, finished. cbn [heap].
  rewrite lookup_insert_eq. repeat split.
Qed.

(** C8: for dimensions from 1 to 2^31 - 1 whose buffer of
    [4*width*height] bytes is within the allocation limit of the
    runtime, so that Go's [image.NewRGBA] allocates it,
    [NewEmptyTexture] returns a texture and a nil error; [Width] and
    [Height] of the texture are [width] and [height], and what was
    uploaded is a zero-filled buffer of [4*width*height] bytes with
    internal format [pixelFormat] and source format [uint32(pixelFormat)]. *)
Theorem NewEmptyTexture_zero_filled drawGray drawRGBA
    (width height pixelFormat : Z) (w : World) :
  0 < width < 2 ^ 31 -> 0 < height < 2 ^ 31 ->
  4 * width * height <= runtime.maxAlloc ->
  exists p w',
    NewEmptyTexture (lib := image.go_image drawGray drawRGBA)
                    width height pixelFormat w
    = Returned (Some p, None) w'
    /\ Width p w' = Returned width w'
    /\ Height p w' = Returned height w'
    /\ gl.image (gl.object (gl.next_name (gl_state w)) (gl_state w'))
       = Some (gl.mkTexImage 0 pixelFormat width height 0
                 (GoInt.uint32 pixelFormat) gl.UNSIGNED_BYTE
                 (repeat 0 (Z.to_nat (4 * width * height))))
    /\ ID p w' = Returned (gl.next_name (gl_state w)) w'.
Proof.
  intros Hw Hh Hn.
  assert (H31 : 2 ^ 31 < 2 ^ 63) by reflexivity.
  assert (H33 : 4 * 2 ^ 31 < 2 ^ 64) by reflexivity.
  assert (Hdx : image.Dx (rect 0 0 width height) = width) by (apply Dx_origin; lia).
  assert (Hdy : image.Dy (rect 0 0 width height) = height) by (apply Dy_origin; lia).
  pose proof (go_alloc_ok 4 (rect 0 0 width height)) as Ha.
  rewrite Hdx, Hdy in Ha.
  specialize (Ha ltac:(lia) ltac:(lia) ltac:(lia) ltac:(lia) Hn).
  do 2 eexists.
  split.
  { rewrite (NewEmptyTexture_eq (lib := image.go_image drawGray drawRGBA)
               width height pixelFormat _ w Ha).
    apply completed_nonempty. cbn [image.Pix]. apply repeat_nonempty. nia. }
  cbn [image.Rect image.Pix].
  destruct (finished_fields (rect 0 0 width height) pixelFormat
              (GoInt.uint32 pixelFormat) (repeat 0 (Z.to_nat (4 * width * height))) w)
    as (HW & HH & HI).
  rewrite finished_image, HW, HH, HI, Hdx, Hdy.
  rewrite !int32_small by (unfold GoInt.in_int32; lia).
  repeat split.
Qed.

Lemma NewEmptyTexture_zero_filled_witness :
  exists p w',
    NewEmptyTexture (lib := image.go_image no_draw no_draw) 4 4 gl.RGBA world0
    = Returned (Some p, None) w'
    /\ Width p w' = Returned 4 w'
    /\ Height p w' = Returned 4 w'
    /\ gl.image (gl.object (gl.next_name (gl_state world0)) (gl_state w'))
       = Some (gl.mkTexImage 0 gl.RGBA 4 4 0 (GoInt.uint32 gl.RGBA) gl.UNSIGNED_BYTE
                 (repeat 0 (Z.to_nat (4 * 4 * 4))))
    /\ ID p w' = Returned (gl.next_name (gl_state world0)) w'.
Proof.
  apply (NewEmptyTexture_zero_filled no_draw no_draw 4 4 gl.RGBA world0);
    [ lia | lia | vm_compute; discriminate ].
Defined.

(** For a width of 2^31 and a height of 1, a buffer of 2^33 bytes, the
    texture returned has width -2^31. *)
Lemma NewEmptyTexture_width_wraps :
  exists p w',
    NewEmptyTexture (lib := image.go_image no_draw no_draw) 2147483648 1 gl.RGBA world0
    = Returned (Some p, None) w'
    /\ Width p w' = Returned (-2147483648) w'
    /\ Width p w' <> Returned 2147483648 w'.
Proof.
  pose proof (go_alloc_ok 4 (rect 0 0 2147483648 1)) as Ha.
  assert (Hdx : image.Dx (rect 0 0 2147483648 1) = 2147483648) by (vm_compute; reflexivity).
  assert (Hdy : image.Dy (rect 0 0 2147483648 1) = 1) by (vm_compute; reflexivity).
  rewrite Hdx, Hdy in Ha.
  specialize (Ha ltac:(lia) ltac:(lia) ltac:(lia) ltac:(reflexivity)
                 ltac:(vm_compute; discriminate)).
  do 2 eexists.
  split.
  { rewrite (NewEmptyTexture_eq (lib := image.go_image no_draw no_draw)
               2147483648 1 gl.RGBA _ world0 Ha).
    apply completed_nonempty. cbn [image.Pix]. apply repeat_nonempty. reflexivity. }
  cbn [image.Rect image.Pix].
  destruct (finished_fields (rect 0 0 2147483648 1) gl.RGBA (GoInt.uint32 gl.RGBA)
              (repeat 0 (Z.to_nat (4 * 2147483648 * 1))) world0) as (HW & _ & _).
  rewrite HW, Hdx.
  assert (Hwrap : GoInt.int32 2147483648 = -2147483648) by (vm_compute; reflexivity).
  rewrite Hwrap. split; [ reflexivity | ]. intros [= H].
Qed.

(** A negative width makes [image.NewRGBA], and the call, panic. *)
Lemma NewEmptyTexture_negative_width :
  exists why,
    NewEmptyTexture (lib := image.go_image no_draw no_draw) (-1) 1 gl.RGBA world0
    = Panicked why world0.
Proof. eexists. reflexivity. Qed.

(** *** The OpenGL context after a constructor *)

Lemma object_on_bound_other target f st name :
  name <> gl.bound target st ->
  gl.object name (gl.on_bound target f st) = gl.object name st.
Proof.
  intros Hne. unfold gl.object, gl.on_bound. cbn [gl.objects].
  rewrite lookup_insert_ne by congruence. reflexivity.
Qed.

(** The context in which the sampler parameters are set. *)
Lemma configured_steps st :
  exists st0,
    configured st =
      gl.TexParameteri gl.TEXTURE_2D gl.TEXTURE_WRAP_T gl.CLAMP_TO_EDGE
        (gl.TexParameteri gl.TEXTURE_2D gl.TEXTURE_WRAP_S gl.CLAMP_TO_EDGE
          (gl.TexParameteri gl.TEXTURE_2D gl.TEXTURE_MAG_FILTER gl.LINEAR
            (gl.TexParameteri gl.TEXTURE_2D gl.TEXTURE_MIN_FILTER gl.LINEAR st0)))
    /\ gl.bound gl.TEXTURE_2D st0 = gl.next_name st
    /\ gl.objects st0 = gl.objects st.
Proof.
  eexists. split; [ reflexivity | ]. split; [ apply bound_BindTexture | reflexivity ].
Qed.

Lemma bound_TexParameteri target pname param target' st :
  gl.bound target' (gl.TexParameteri target pname param st) = gl.bound target' st.
Proof. reflexivity. Qed.

Lemma object_TexParameteri target pname param st name :
  gl.bound target st = name ->
  gl.object name (gl.TexParameteri target pname param st)
  = gl.mkTexObject (<[pname := param]> (gl.params (gl.object name st)))
                   (gl.image (gl.object name st)).
Proof. intros <-. unfold gl.TexParameteri. apply object_on_bound. Qed.

Lemma configured_object st :
  gl.object (gl.next_name st) (configured st)
  = gl.mkTexObject (sampled (gl.params (gl.object (gl.next_name st) st)))
                   (gl.image (gl.object (gl.next_name st) st)).
Proof.
  destruct (configured_steps st) as (st0 & -> & Hb & Ho).
  rewrite !object_TexParameteri by (rewrite ?bound_TexParameteri; exact Hb).
  cbn [gl.params gl.image].
  unfold sampled, gl.object. rewrite Ho. reflexivity.
Qed.

Lemma configured_other st name :
  name <> gl.next_name st ->
  gl.object name (configured st) = gl.object name st.
Proof.
  intros Hne. destruct (configured_steps st) as (st0 & -> & Hb & Ho).
  unfold gl.TexParameteri.
  rewrite !object_on_bound_other by (rewrite ?on_bound_bound, Hb; exact Hne).
  unfold gl.object. rewrite Ho. reflexivity.
Qed.

Lemma sampled_lookup (ps : gmap Z Z) :
  sampled ps !! gl.TEXTURE_MIN_FILTER = Some gl.LINEAR
  /\ sampled ps !! gl.TEXTURE_MAG_FILTER = Some gl.LINEAR
  /\ sampled ps !! gl.TEXTURE_WRAP_S = Some gl.CLAMP_TO_EDGE
  /\ sampled ps !! gl.TEXTURE_WRAP_T = Some gl.CLAMP_TO_EDGE.
Proof.
  unfold sampled. repeat split.
  - rewrite !lookup_insert_ne by discriminate. apply lookup_insert_eq.
  - rewrite !lookup_insert_ne by discriminate. apply lookup_insert_eq.
  - rewrite !lookup_insert_ne by discriminate. apply lookup_insert_eq.
  - apply lookup_insert_eq.
Qed.

Lemma object_BindTexture name target n st :
  gl.object name (gl.BindTexture target n st) = gl.object name st.
Proof. reflexivity. Qed.

Lemma finished_object bounds internalformat format pix w :
  gl.object (gl.next_name (gl_state w))
            (gl_state (finished bounds internalformat format pix w))
  = gl.mkTexObject
      (sampled (gl.params (gl.object (gl.next_name (gl_state w)) (gl_state w))))
      (Some (gl.mkTexImage 0 internalformat
               (GoInt.int32 (image.Dx bounds)) (GoInt.int32 (image.Dy bounds))
               0 format gl.UNSIGNED_BYTE pix)).
Proof.
  unfold finished, uploaded. cbn [gl_state].
  rewrite object_BindTexture.
  rewrite <- (configured_bound (gl_state w)) at 1.
  unfold gl.TexImage2D. rewrite object_on_bound, configured_bound, configured_object.
  reflexivity.
Qed.

Lemma finished_other bounds internalformat format pix w name :
  name <> gl.next_name (gl_state w) ->
  gl.object name (gl_state (finished bounds internalformat format pix w))
  = gl.object name (gl_state w).
Proof.
  intros Hne. unfold finished, uploaded. cbn [gl_state].
  rewrite object_BindTexture.
  unfold gl.TexImage2D.
  rewrite object_on_bound_other by (rewrite configured_bound; exact Hne).
  apply configured_other, Hne.
Qed.

Lemma finished_bindings bounds internalformat format pix w :
  gl.bindings (gl_state (finished bounds internalformat format pix w))
  = <[(gl.TEXTURE0, gl.TEXTURE_2D) := 0]> (gl.bindings (gl_state w)).
Proof.
  unfold finished, uploaded, configured. cbn. apply insert_insert_eq.
Qed.

Lemma refused_bindings bounds w :
  gl.bindings (gl_state (refused bounds w))
  = <[(gl.TEXTURE0, gl.TEXTURE_2D) := gl.next_name (gl_state w)]>
      (gl.bindings (gl_state w)).
Proof. reflexivity. Qed.

(** *** The stride checks with the allocators of Go *)

Lemma NewTextureFromImage_nil_inv `{lib : image.Lib} imageData w w' :
  NewTextureFromImage imageData w = Returned None w' ->
  match imageData with
  | image.NRGBA _ => False
  | image.Gray16 r =>
    exists g, image.NewGray (image.Rect r) = Some g
              /\ image.Stride g <> GoInt.int (image.PX (image.Size (image.Rect g)) * 1)
  | image.Other bounds _ =>
    exists g, image.NewRGBA bounds = Some g
              /\ image.Stride g <> GoInt.int (image.PX (image.Size (image.Rect g)) * 4)
  | image.Nil => False
  end.
Proof.
  destruct imageData as [ras | ras | bounds At | ].
  - destruct (image.NewGray (image.Rect ras)) as [g | ] eqn:Hg.
    + rewrite (NewTextureFromImage_Gray16 _ _ _ Hg).
      destruct (Z.eqb_spec (image.Stride g)
                  (GoInt.int (image.PX (image.Size (image.Rect g)) * 1))) as [ | Hne].
      * intros H. apply completed_inv in H as ([=] & _).
      * intros _. eauto.
    + rewrite (NewTextureFromImage_Gray16_none _ _ Hg). discriminate.
  - rewrite NewTextureFromImage_NRGBA.
    intros H. apply completed_inv in H as ([=] & _).
  - destruct (image.NewRGBA bounds) as [g | ] eqn:Hg.
    + rewrite (NewTextureFromImage_Other _ At _ _ Hg).
      destruct (Z.eqb_spec (image.Stride g)
                  (GoInt.int (image.PX (image.Size (image.Rect g)) * 4))) as [ | Hne].
      * intros H. apply completed_inv in H as ([=] & _).
      * intros _. eauto.
    + rewrite (NewTextureFromImage_Other_none _ At _ Hg). discriminate.
  - rewrite NewTextureFromImage_Nil. discriminate.
Qed.

(** The buffers of Go's allocator have tightly packed rows. *)
Lemma go_alloc_tight (bytesPerPixel : Z) (r : image.Rectangle) (g : image.Raster) :
  image.go_alloc bytesPerPixel r = Some g ->
  image.Stride g = GoInt.int (image.PX (image.Size (image.Rect g)) * bytesPerPixel).
Proof.
  unfold image.go_alloc.
  destruct (image.pixelBufferLength bytesPerPixel r) as [n | ]; [ | discriminate ].
  destruct (runtime.fits 1 n); [ | discriminate ].
  intros [= <-]. cbn [image.Stride image.Rect image.Size image.PX].
  f_equal. apply Z.mul_comm.
Qed.

(** So with them no call takes the return of a stride check. *)
Lemma go_image_not_refused drawGray drawRGBA imageData w w' :
  NewTextureFromImage (lib := image.go_image drawGray drawRGBA) imageData w
  <> Returned None w'.
Proof.
  intros H. apply NewTextureFromImage_nil_inv in H.
  destruct imageData as [ras | ras | bounds At | ].
  - destruct H as (g & Hg & Hne). apply Hne.
    apply (go_alloc_tight 1 (image.Rect ras)), Hg.
  - exact H.
  - destruct H as (g & Hg & Hne). apply Hne.
    apply (go_alloc_tight 4 bounds), Hg.
  - exact H.
Qed.

(** *** The binding on return *)



(* ================================================================== *)
(** * Part III: further properties of the code                         *)
(* ================================================================== *)

(** ** CircleToPolygon: the three outcomes *)

(** X1: whenever [CircleToPolygon] returns a vertex list, the list has
    exactly [numSegments] vertices and [numSegments] is at least 3; and
    it does return one when [radius <= 0] is false, [numSegments] is at
    least 3 and the [numSegments*2] vertices of 8 bytes that [make] is
    asked for are within the allocation limit of the runtime, that is,
    up to 2^44 segments. *)
Theorem CircleToPolygon_vertex_count (Sin Cos : F64.t -> F64.t)
    (center : Vec2) (radius : F32.t) (numSegments : Z) (startAngle : F32.t) :
  (forall vertices,
      CircleToPolygon Sin Cos center radius numSegments startAngle = Ok vertices ->
      Z.of_nat (length vertices) = numSegments /\ 3 <= numSegments)
  /\ (F32.leb radius F32.zero = false -> 3 <= numSegments ->
      16 * numSegments <= runtime.maxAlloc ->
      exists vertices,
        CircleToPolygon Sin Cos center radius numSegments startAngle = Ok vertices).
Proof.
  unfold CircleToPolygon. split.
  - intros vertices.
    destruct (F32.leb radius F32.zero); [ discriminate | ].
    destruct (Z.ltb_spec numSegments 3) as [ | Hn]; [ discriminate | ].
    destruct (makeslice 8 _) as [vs | ] eqn:Hm; [ | discriminate ].
    apply makeslice_nil in Hm as ->.
    intros [= <-]. rewrite polygon_loop_length. simpl length. lia.
  - intros Hr Hn Hm. rewrite Hr.
    destruct (Z.ltb_spec numSegments 3) as [ | _]; [ lia | ].
    unfold makeslice. rewrite cap_fits_intro by lia.
    eexists. reflexivity.
Qed.

Lemma CircleToPolygon_vertex_count_witness :
  exists vertices,
    CircleToPolygon no_trig no_trig (mkVec2 F32.zero F32.zero) (F32.of_int 1) 5 F32.zero
    = Ok vertices
    /\ Z.of_nat (length vertices) = 5.
Proof.
  destruct (proj2 (CircleToPolygon_vertex_count no_trig no_trig
                     (mkVec2 F32.zero F32.zero) (F32.of_int 1) 5 F32.zero))
    as [vertices Hv]; [ reflexivity | lia | vm_compute; discriminate | ].
  exists vertices. split; [ exact Hv | ].
  apply (proj1 (CircleToPolygon_vertex_count no_trig no_trig
                  (mkVec2 F32.zero F32.zero) (F32.of_int 1) 5 F32.zero) vertices Hv).
Defined.

(** X2: the vertices that [CircleToPolygon] returns are, in order, the
    start point [Rotate2D(startAngle) * (radius, 0)] turned 0, 1, 2, ...
    times by the rotation of one segment, each moved by [center]; the
    first one is the start point moved by [center]. *)
Theorem CircleToPolygon_vertices (Sin Cos : F64.t -> F64.t)
    (center : Vec2) (radius : F32.t) (numSegments : Z) (startAngle : F32.t)
    (vertices : list Vec2) :
  CircleToPolygon Sin Cos center radius numSegments startAngle = Ok vertices ->
  vertices =
    map (fun k => Add (Nat.iter k (Mul2x1 (step_rotation Sin Cos numSegments))
                                (start_point Sin Cos radius startAngle)) center)
        (seq 0 (Z.to_nat numSegments))
  /\ vertices !! 0%nat = Some (Add (start_point Sin Cos radius startAngle) center).
Proof.
  unfold CircleToPolygon.
  destruct (F32.leb radius F32.zero); [ discriminate | ].
  destruct (Z.ltb_spec numSegments 3) as [ | Hn]; [ discriminate | ].
  destruct (makeslice 8 _) as [vs | ] eqn:Hm; [ | discriminate ].
  apply makeslice_nil in Hm as ->.
  intros [= <-]. rewrite polygon_loop_vertices. cbn [app].
  split; [ reflexivity | ].
  destruct (Z.to_nat numSegments) as [ | n] eqn:E; [ lia | reflexivity ].
Qed.

Lemma CircleToPolygon_vertices_witness :
  exists vertices,
    CircleToPolygon no_trig no_trig (mkVec2 F32.zero F32.zero) (F32.of_int 1) 3 F32.zero
    = Ok vertices
    /\ vertices !! 0%nat
       = Some (Add (start_point no_trig no_trig (F32.of_int 1) F32.zero)
                   (mkVec2 F32.zero F32.zero)).
Proof.
  eexists. split; [ reflexivity | ].
  apply (CircleToPolygon_vertices no_trig no_trig (mkVec2 F32.zero F32.zero)
           (F32.of_int 1) 3 F32.zero).
  reflexivity.
Defined.

(** X3: for a [numSegments] within the range of [int],
    [CircleToPolygon] panics exactly when [radius <= 0] is false and
    the [numSegments*2] vertices of 8 bytes asked of [make] are more
    than the runtime allocates, that is, for more than 2^44 segments;
    from 2^62 segments on the capacity [numSegments*2] has wrapped to a
    negative [int]. *)
Theorem CircleToPolygon_panics_iff (Sin Cos : F64.t -> F64.t)
    (center : Vec2) (radius : F32.t) (numSegments : Z) (startAngle : F32.t) :
  - 2 ^ 63 <= numSegments < 2 ^ 63 ->
  (exists why,
      CircleToPolygon Sin Cos center radius numSegments startAngle = Panic why)
  <-> (F32.leb radius F32.zero = false /\ runtime.maxAlloc < 16 * numSegments).
Proof.
  intros Hr. unfold CircleToPolygon, makeslice.
  assert (Hmax : 48 <= runtime.maxAlloc) by (vm_compute; discriminate).
  destruct (F32.leb radius F32.zero).
  - split; [ intros [why H]; discriminate H | intros [H _]; discriminate H ].
  - destruct (Z.ltb_spec numSegments 3) as [Hn | Hn].
    + split; [ intros [why H]; discriminate H | ].
      intros [_ H]. lia.
    + destruct (runtime.fits 8 (GoInt.int (numSegments * 2))) eqn:Hf.
      * apply cap_fits_elim in Hf; [ | lia ].
        split; [ intros [why H]; discriminate H | ].
        intros [_ H]. lia.
      * split; [ | eauto ]. intros _. split; [ reflexivity | ].
        destruct (Z_lt_le_dec runtime.maxAlloc (16 * numSegments)) as [Hlt | Hge];
          [ exact Hlt | ].
        rewrite cap_fits_intro in Hf by lia. discriminate Hf.
Qed.

Lemma CircleToPolygon_panics_iff_witness :
  exists why,
    CircleToPolygon no_trig no_trig (mkVec2 F32.zero F32.zero) (F32.of_int 1)
                    (2 ^ 62) F32.zero = Panic why.
Proof.
  apply (CircleToPolygon_panics_iff no_trig no_trig (mkVec2 F32.zero F32.zero)
           (F32.of_int 1) (2 ^ 62) F32.zero).
  - vm_compute. split; [ discriminate | reflexivity ].
  - split; [ reflexivity | vm_compute; reflexivity ].
Defined.

(** ** GetBoundingBox beyond finite inputs *)

Lemma ordered_leb_refl a : ordered a = true -> SFleb a a = true.
Proof. destruct a; simpl; try discriminate; intros _; float_order. Qed.

Lemma ordered_ltb_false_leb a b :
  ordered a = true -> ordered b = true -> SFltb a b = false -> SFleb b a = true.
Proof. destruct a, b; simpl; try discriminate; intros _ _; float_order. Qed.

Lemma ordered_leb_ltb_false a b :
  ordered a = true -> ordered b = true -> SFleb a b = true -> SFltb b a = false.
Proof. destruct a, b; simpl; try discriminate; intros _ _; float_order. Qed.

Lemma ordered_leb_trans a b c :
  ordered a = true -> ordered b = true -> ordered c = true ->
  SFleb a b = true -> SFleb b c = true -> SFleb a c = true.
Proof. destruct a, b, c; simpl; try discriminate; intros _ _ _; float_order. Qed.

(** A comparison that holds has no NaN on either side. *)
Lemma SFltb_ordered a b : SFltb a b = true -> ordered a = true /\ ordered b = true.
Proof. destruct a, b; simpl; try discriminate; auto. Qed.

Lemma SFltb_nan_l b : SFltb S754_nan b = false.
Proof. reflexivity. Qed.

Lemma SFltb_nan_r a : SFltb a S754_nan = false.
Proof. destruct a; reflexivity. Qed.

Lemma sel_min_ordered m x : ordered m = true -> ordered (sel_min m x) = true.
Proof.
  intros Hm. unfold sel_min, F32.ltb. destruct (SFltb x m) eqn:E; [ | exact Hm ].
  apply SFltb_ordered in E. tauto.
Qed.

Lemma sel_max_ordered m x : ordered m = true -> ordered (sel_max m x) = true.
Proof.
  intros Hm. unfold sel_max, F32.gtb. destruct (SFltb m x) eqn:E; [ | exact Hm ].
  apply SFltb_ordered in E. tauto.
Qed.

Lemma sel_min_le_l m x : ordered m = true -> SFleb (sel_min m x) m = true.
Proof.
  intros Hm. unfold sel_min, F32.ltb. destruct (SFltb x m) eqn:E.
  - apply SFltb_leb, E.
  - apply ordered_leb_refl, Hm.
Qed.

Lemma sel_max_ge_l m x : ordered m = true -> SFleb m (sel_max m x) = true.
Proof.
  intros Hm. unfold sel_max, F32.gtb. destruct (SFltb m x) eqn:E.
  - apply SFltb_leb, E.
  - apply ordered_leb_refl, Hm.
Qed.

Lemma sel_min_le_r m x :
  ordered m = true -> ordered x = true -> SFleb (sel_min m x) x = true.
Proof.
  intros Hm Hx. unfold sel_min, F32.ltb. destruct (SFltb x m) eqn:E.
  - apply ordered_leb_refl, Hx.
  - apply ordered_ltb_false_leb; assumption.
Qed.

Lemma sel_max_ge_r m x :
  ordered m = true -> ordered x = true -> SFleb x (sel_max m x) = true.
Proof.
  intros Hm Hx. unfold sel_max, F32.gtb. destruct (SFltb m x) eqn:E.
  - apply ordered_leb_refl, Hx.
  - apply ordered_ltb_false_leb; assumption.
Qed.

Lemma run_min_cons m x xs : run_min m (x :: xs) = run_min (sel_min m x) xs.
Proof. reflexivity. Qed.

Lemma run_max_cons m x xs : run_max m (x :: xs) = run_max (sel_max m x) xs.
Proof. reflexivity. Qed.

Lemma run_min_app m xs ys : run_min m (xs ++ ys) = run_min (run_min m xs) ys.
Proof. unfold run_min. apply fold_left_app. Qed.

Lemma run_max_app m xs ys : run_max m (xs ++ ys) = run_max (run_max m xs) ys.
Proof. unfold run_max. apply fold_left_app. Qed.

(** From a start that is not a NaN, the running minimum is not a NaN,
    is at most the start and at most every element that is not a NaN. *)
Lemma run_min_lower (xs : list F32.t) : forall m,
  ordered m = true ->
  ordered (run_min m xs) = true
  /\ SFleb (run_min m xs) m = true
  /\ (forall x, In x xs -> ordered x = true -> SFleb (run_min m xs) x = true).
Proof.
  induction xs as [ | x xs IH]; intros m Hm.
  - simpl. repeat split; auto using ordered_leb_refl; intros x Hx; destruct Hx.
  - rewrite run_min_cons.
    destruct (IH (sel_min m x) (sel_min_ordered m x Hm)) as (Ho & Hle & Hall).
    split; [ exact Ho | ].
    split.
    + apply (ordered_leb_trans _ (sel_min m x)); auto using sel_min_ordered, sel_min_le_l.
    + intros y [<- | Hy] Hoy; [ | apply Hall; assumption ].
      apply (ordered_leb_trans _ (sel_min m x)); auto using sel_min_ordered, sel_min_le_r.
Qed.

Lemma run_max_upper (xs : list F32.t) : forall m,
  ordered m = true ->
  ordered (run_max m xs) = true
  /\ SFleb m (run_max m xs) = true
  /\ (forall x, In x xs -> ordered x = true -> SFleb x (run_max m xs) = true).
Proof.
  induction xs as [ | x xs IH]; intros m Hm.
  - simpl. repeat split; auto using ordered_leb_refl; intros x Hx; destruct Hx.
  - rewrite run_max_cons.
    destruct (IH (sel_max m x) (sel_max_ordered m x Hm)) as (Ho & Hle & Hall).
    split; [ exact Ho | ].
    split.
    + apply (ordered_leb_trans _ (sel_max m x)); auto using sel_max_ordered, sel_max_ge_l.
    + intros y [<- | Hy] Hoy; [ | apply Hall; assumption ].
      apply (ordered_leb_trans _ (sel_max m x)); auto using sel_max_ordered, sel_max_ge_r.
Qed.

Lemma GetBoundingBox_fields (points : list Vec2) :
  GetBoundingBox points =
  (mkVec2 (run_min math.MaxFloat32 (map X points))
          (run_min math.MaxFloat32 (map Y points)),
   mkVec2 (run_max (F32.neg math.MaxFloat32) (map X points))
          (run_max (F32.neg math.MaxFloat32) (map Y points))).
Proof. unfold GetBoundingBox. rewrite bbox_fold_fields. reflexivity. Qed.

(** X4: whatever the list, a point lies within the returned box in
    each coordinate of it that is not a NaN; infinite coordinates are
    covered as well. *)
Theorem GetBoundingBox_contains (points : list Vec2) (p : Vec2) :
  In p points ->
  (ordered (X p) = true ->
     F32.leb (X (fst (GetBoundingBox points))) (X p) = true
     /\ F32.leb (X p) (X (snd (GetBoundingBox points))) = true)
  /\ (ordered (Y p) = true ->
     F32.leb (Y (fst (GetBoundingBox points))) (Y p) = true
     /\ F32.leb (Y p) (Y (snd (GetBoundingBox points))) = true).
Proof.
  intros Hp. rewrite GetBoundingBox_fields. cbn [fst snd X Y]. unfold F32.leb.
  split; intros Ho; split.
  - apply (run_min_lower (map X points) math.MaxFloat32 eq_refl); auto using in_map.
  - apply (run_max_upper (map X points) (F32.neg math.MaxFloat32) eq_refl); auto using in_map.
  - apply (run_min_lower (map Y points) math.MaxFloat32 eq_refl); auto using in_map.
  - apply (run_max_upper (map Y points) (F32.neg math.MaxFloat32) eq_refl); auto using in_map.
Qed.

Lemma GetBoundingBox_contains_witness :
  F32.leb (X (fst (GetBoundingBox [mkVec2 (S754_infinity false) S754_nan])))
          (S754_infinity false) = true
  /\ F32.leb (S754_infinity false)
             (X (snd (GetBoundingBox [mkVec2 (S754_infinity false) S754_nan]))) = true.
Proof.
  apply (proj1 (GetBoundingBox_contains [mkVec2 (S754_infinity false) S754_nan]
                  (mkVec2 (S754_infinity false) S754_nan)
                  (or_introl eq_refl))).
  reflexivity.
Defined.

Lemma run_min_all_nan (xs : list F32.t) m :
  (forall x, In x xs -> x = S754_nan) -> run_min m xs = m.
Proof.
  revert m. induction xs as [ | x xs IH]; intros m H; [ reflexivity | ].
  rewrite run_min_cons. rewrite (H x (or_introl eq_refl)).
  unfold sel_min, F32.ltb. rewrite SFltb_nan_l. apply IH.
  intros y Hy. apply H. right. exact Hy.
Qed.

Lemma run_max_all_nan (xs : list F32.t) m :
  (forall x, In x xs -> x = S754_nan) -> run_max m xs = m.
Proof.
  revert m. induction xs as [ | x xs IH]; intros m H; [ reflexivity | ].
  rewrite run_max_cons. rewrite (H x (or_introl eq_refl)).
  unfold sel_max, F32.gtb. rewrite SFltb_nan_r. apply IH.
  intros y Hy. apply H. right. exact Hy.
Qed.

Lemma sentinels_inverted : SFltb (F32.neg math.MaxFloat32) math.MaxFloat32 = true.
Proof. reflexivity. Qed.

(** X5: the returned box is inverted in X, that is [max.X < min.X], if
    and only if no point has an X coordinate other than NaN, the empty
    list included; and likewise in Y.  A caller can tell the degenerate
    box by this test. *)
Theorem GetBoundingBox_inverted_iff (points : list Vec2) :
  (F32.ltb (X (snd (GetBoundingBox points))) (X (fst (GetBoundingBox points))) = true
   <-> forall p, In p points -> X p = S754_nan)
  /\ (F32.ltb (Y (snd (GetBoundingBox points))) (Y (fst (GetBoundingBox points))) = true
   <-> forall p, In p points -> Y p = S754_nan).
Proof.
  rewrite GetBoundingBox_fields. cbn [fst snd X Y]. unfold F32.ltb.
  split; split.
  - intros Hinv p Hp.
    destruct (ordered (X p)) eqn:Ho; [ | destruct (X p); try discriminate; reflexivity ].
    exfalso.
    destruct (run_min_lower (map X points) math.MaxFloat32 eq_refl) as (Ho1 & _ & Hlo).
    destruct (run_max_upper (map X points) (F32.neg math.MaxFloat32) eq_refl)
      as (Ho2 & _ & Hhi).
    specialize (Hlo (X p) (in_map X _ _ Hp) Ho).
    specialize (Hhi (X p) (in_map X _ _ Hp) Ho).
    pose proof (ordered_leb_trans _ _ _ Ho1 Ho Ho2 Hlo Hhi) as Hle.
    apply ordered_leb_ltb_false in Hle; auto. congruence.
  - intros Hnan.
    rewrite run_min_all_nan, run_max_all_nan; [ apply sentinels_inverted | | ];
      intros x Hx; apply in_map_iff in Hx as (p & <- & Hp); auto.
  - intros Hinv p Hp.
    destruct (ordered (Y p)) eqn:Ho; [ | destruct (Y p); try discriminate; reflexivity ].
    exfalso.
    destruct (run_min_lower (map Y points) math.MaxFloat32 eq_refl) as (Ho1 & _ & Hlo).
    destruct (run_max_upper (map Y points) (F32.neg math.MaxFloat32) eq_refl)
      as (Ho2 & _ & Hhi).
    specialize (Hlo (Y p) (in_map Y _ _ Hp) Ho).
    specialize (Hhi (Y p) (in_map Y _ _ Hp) Ho).
    pose proof (ordered_leb_trans _ _ _ Ho1 Ho Ho2 Hlo Hhi) as Hle.
    apply ordered_leb_ltb_false in Hle; auto. congruence.
  - intros Hnan.
    rewrite run_min_all_nan, run_max_all_nan; [ apply sentinels_inverted | | ];
      intros x Hx; apply in_map_iff in Hx as (p & <- & Hp); auto.
Qed.

(** X6: a point with a NaN coordinate takes no part in that coordinate
    of the box: with or without the point, wherever it stands in the
    list, the X extremes are the same when its X is a NaN, and likewise
    for Y. *)
Theorem GetBoundingBox_skips_NaN (before after : list Vec2) (p : Vec2) :
  (X p = S754_nan ->
     X (fst (GetBoundingBox (before ++ p :: after)))
       = X (fst (GetBoundingBox (before ++ after)))
     /\ X (snd (GetBoundingBox (before ++ p :: after)))
       = X (snd (GetBoundingBox (before ++ after))))
  /\ (Y p = S754_nan ->
     Y (fst (GetBoundingBox (before ++ p :: after)))
       = Y (fst (GetBoundingBox (before ++ after)))
     /\ Y (snd (GetBoundingBox (before ++ p :: after)))
       = Y (snd (GetBoundingBox (before ++ after)))).
Proof.
  rewrite !GetBoundingBox_fields. cbn [fst snd X Y].
  rewrite !map_app. cbn [map].
  rewrite !run_min_app, !run_max_app, !run_min_cons, !run_max_cons.
  split; intros ->; unfold sel_min, sel_max, F32.ltb, F32.gtb;
    rewrite SFltb_nan_l, SFltb_nan_r; split; reflexivity.
Qed.

Lemma GetBoundingBox_skips_NaN_witness :
  X (fst (GetBoundingBox ([mkVec2 (F32.of_int 1) (F32.of_int 2)]
                          ++ mkVec2 S754_nan (F32.of_int 7)
                          :: [mkVec2 (F32.of_int 3) (F32.of_int 0)])))
  = X (fst (GetBoundingBox ([mkVec2 (F32.of_int 1) (F32.of_int 2)]
                            ++ [mkVec2 (F32.of_int 3) (F32.of_int 0)]))).
Proof.
  apply (proj1 (GetBoundingBox_skips_NaN
                  [mkVec2 (F32.of_int 1) (F32.of_int 2)]
                  [mkVec2 (F32.of_int 3) (F32.of_int 0)]
                  (mkVec2 S754_nan (F32.of_int 7)))).
  reflexivity.
Defined.

(** *** Boxes of concatenated lists *)

Lemma sel_min_assoc m a x :
  ordered m = true -> ordered a = true ->
  sel_min (sel_min m a) x = sel_min m (sel_min a x).
Proof.
  intros Hm Ha. unfold sel_min, F32.ltb.
  destruct (SFltb a m) eqn:E1, (SFltb x a) eqn:E2; rewrite ?E1, ?E2; try reflexivity.
  - destruct (SFltb x m) eqn:E3; [ reflexivity | ].
    exfalso. clear - E1 E2 E3. destruct m, a, x; simpl in *; try discriminate; float_order.
  - destruct (SFltb x m) eqn:E3; [ | reflexivity ].
    exfalso. clear - Hm Ha E1 E2 E3.
    destruct m, a, x; simpl in *; try discriminate; float_order.
Qed.

Lemma sel_max_assoc m a x :
  ordered m = true -> ordered a = true ->
  sel_max (sel_max m a) x = sel_max m (sel_max a x).
Proof.
  intros Hm Ha. unfold sel_max, F32.gtb.
  destruct (SFltb m a) eqn:E1, (SFltb a x) eqn:E2; rewrite ?E1, ?E2; try reflexivity.
  - destruct (SFltb m x) eqn:E3; [ reflexivity | ].
    exfalso. clear - E1 E2 E3. destruct m, a, x; simpl in *; try discriminate; float_order.
  - destruct (SFltb m x) eqn:E3; [ | reflexivity ].
    exfalso. clear - Hm Ha E1 E2 E3.
    destruct m, a, x; simpl in *; try discriminate; float_order.
Qed.

(** Two runs over the same list, one of them started from the
    selection of [m] and the start of the other. *)
Lemma run_min_from (xs : list F32.t) : forall m a,
  ordered m = true -> ordered a = true ->
  run_min (sel_min m a) xs = sel_min m (run_min a xs).
Proof.
  induction xs as [ | x xs IH]; intros m a Hm Ha; [ reflexivity | ].
  rewrite !run_min_cons, sel_min_assoc by assumption.
  apply IH; auto using sel_min_ordered.
Qed.

Lemma run_max_from (xs : list F32.t) : forall m a,
  ordered m = true -> ordered a = true ->
  run_max (sel_max m a) xs = sel_max m (run_max a xs).
Proof.
  induction xs as [ | x xs IH]; intros m a Hm Ha; [ reflexivity | ].
  rewrite !run_max_cons, sel_max_assoc by assumption.
  apply IH; auto using sel_max_ordered.
Qed.

Lemma run_min_union (xs ys : list F32.t) :
  run_min math.MaxFloat32 (xs ++ ys)
  = sel_min (run_min math.MaxFloat32 xs) (run_min math.MaxFloat32 ys).
Proof.
  destruct (run_min_lower xs math.MaxFloat32 eq_refl) as (Ho & Hle & _).
  rewrite run_min_app, <- run_min_from by (assumption || reflexivity).
  f_equal. unfold sel_min, F32.ltb.
  rewrite ordered_leb_ltb_false; auto.
Qed.

Lemma run_max_union (xs ys : list F32.t) :
  run_max (F32.neg math.MaxFloat32) (xs ++ ys)
  = sel_max (run_max (F32.neg math.MaxFloat32) xs)
            (run_max (F32.neg math.MaxFloat32) ys).
Proof.
  destruct (run_max_upper xs (F32.neg math.MaxFloat32) eq_refl) as (Ho & Hle & _).
  rewrite run_max_app, <- run_max_from by (assumption || reflexivity).
  f_equal. unfold sel_max, F32.gtb.
  rewrite ordered_leb_ltb_false; auto.
Qed.

(** X7: the box of a concatenation is the union of the boxes of the
    two lists, taken with the comparisons of the loop; this holds for
    all lists, NaN coordinates and empty lists included, the box of the
    empty list being neutral. *)
Theorem GetBoundingBox_app (points1 points2 : list Vec2) :
  GetBoundingBox (points1 ++ points2)
  = union_box (GetBoundingBox points1) (GetBoundingBox points2)
  /\ union_box (GetBoundingBox []) (GetBoundingBox points2) = GetBoundingBox points2
  /\ union_box (GetBoundingBox points1) (GetBoundingBox []) = GetBoundingBox points1.
Proof.
  assert (Happ : forall l1 l2,
             GetBoundingBox (l1 ++ l2)
             = union_box (GetBoundingBox l1) (GetBoundingBox l2)).
  { intros l1 l2. rewrite !GetBoundingBox_fields. unfold union_box. cbn [fst snd X Y].
    rewrite !map_app, !run_min_union, !run_max_union. reflexivity. }
  split; [ apply Happ | ].
  split.
  - rewrite <- Happ. reflexivity.
  - rewrite <- Happ, app_nil_r. reflexivity.
Qed.

(** ** Mat4From64to32Bits: signs and NaNs *)

Lemma shr_1_nonneg mrs : 0 <= shr_m mrs -> 0 <= shr_m (shr_1 mrs).
Proof.
  destruct mrs as [m r s]. simpl.
  destruct m as [ | [q | q | ] | [q | q | ]]; simpl; lia.
Qed.

Lemma iter_shr_1_nonneg (n : positive) : forall mrs,
  0 <= shr_m mrs -> 0 <= shr_m (SpecFloat.iter_pos shr_1 n mrs).
Proof.
  induction n as [n IH | n IH | ]; intros mrs H; simpl.
  - apply IH, IH, shr_1_nonneg, H.
  - apply IH, IH, H.
  - apply shr_1_nonneg, H.
Qed.

Lemma shr_fexp_nonneg prec emax m e l :
  0 <= m -> 0 <= shr_m (fst (shr_fexp prec emax m e l)).
Proof.
  intros H. unfold shr_fexp, shr.
  assert (H0 : 0 <= shr_m (shr_record_of_loc m l)) by (destruct l as [ | []]; exact H).
  destruct (fexp prec emax (Zdigits2 m + e) - e); simpl; auto using iter_shr_1_nonneg.
Qed.

Lemma round_nearest_even_nonneg m l : 0 <= m -> 0 <= round_nearest_even m l.
Proof.
  intros H. unfold round_nearest_even. destruct l as [ | []]; try lia.
  destruct (Z.even m); lia.
Qed.

(** Rounding keeps the sign, whether the result is a zero, a finite
    number or an infinity, and never yields a NaN. *)
Lemma binary_round_aux_sign prec emax sx mx ex lx :
  0 <= mx -> signbit (binary_round_aux prec emax sx mx ex lx) = Some sx.
Proof.
  intros H. unfold binary_round_aux.
  pose proof (shr_fexp_nonneg prec emax mx ex lx H) as H1.
  destruct (shr_fexp prec emax mx ex lx) as [mrs' e'] eqn:E1. simpl in H1.
  pose proof (shr_fexp_nonneg prec emax _ e' loc_Exact
                (round_nearest_even_nonneg _ (loc_of_shr_record mrs') H1)) as H2.
  destruct (shr_fexp prec emax
              (round_nearest_even (shr_m mrs') (loc_of_shr_record mrs')) e' loc_Exact)
    as [mrs'' e''] eqn:E2. simpl in H2.
  destruct (shr_m mrs'') as [ | m | m ]; [ reflexivity | | lia ].
  destruct (e'' <=? emax - prec); reflexivity.
Qed.

Lemma of_float64_sign (x : F64.t) : signbit (F32.of_float64 x) = signbit x.
Proof.
  destruct x as [s | s | | s m e]; try reflexivity.
  unfold F32.of_float64, binary_round.
  destruct (shl_align m e _) as [mz ez]. apply binary_round_aux_sign. lia.
Qed.

(** X8: [Mat4From64to32Bits] keeps the sign of every element, zeros
    and infinities included, and an element of the result is a NaN only
    where the element of the argument is one. *)
Theorem Mat4From64to32Bits_sign (mat : mgl64.Mat4) (i : fin 16) :
  signbit (Mat4From64to32Bits mat !!! i) = signbit (mat !!! i)
  /\ (Mat4From64to32Bits mat !!! i = S754_nan <-> mat !!! i = S754_nan).
Proof.
  assert (Hs : signbit (Mat4From64to32Bits mat !!! i) = signbit (mat !!! i)).
  { repeat (inv_fin i; [ apply of_float64_sign | intros i ]). inv_fin i. }
  split; [ exact Hs | ].
  destruct (Mat4From64to32Bits mat !!! i), (mat !!! i); simpl in Hs;
    split; intros H; congruence.
Qed.

(** ** NewTextureFromImage: every outcome *)

Section Outcomes.
Context `{lib : image.Lib}.

(** The ways out of [NewTextureFromImage]: the three of an image that
    has bounds, and the panic of [Bounds] on a nil image, before
    anything else is done. *)
Lemma NewTextureFromImage_outcome imageData w :
  (exists internalformat format pix,
      NewTextureFromImage imageData w
      = Returned (Some (fresh_ptr w))
                 (finished (image.Bounds imageData) internalformat format pix w))
  \/ NewTextureFromImage imageData w
     = Returned None (refused (image.Bounds imageData) w)
  \/ (exists why,
      NewTextureFromImage imageData w
      = Panicked why (prepared (image.Bounds imageData) w))
  \/ (imageData = image.Nil
      /\ NewTextureFromImage imageData w = Panicked nil_dereference w).
Proof.
  assert (Hc : forall (v : option ptr) bounds internalformat format pix,
             (exists i f px, completed v bounds internalformat format pix w
                             = Returned v (finished bounds i f px w))
             \/ (exists why, completed v bounds internalformat format pix w
                             = Panicked why (prepared bounds w))).
  { intros v bounds internalformat format pix. unfold completed.
    destruct pix; [ right | left ]; eauto. }
  destruct imageData as [ras | ras | bounds At | ]; cbn [image.Bounds].
  - destruct (image.NewGray (image.Rect ras)) as [g | ] eqn:Hg.
    + rewrite (NewTextureFromImage_Gray16 _ _ _ Hg).
      destruct (image.Stride g =? _); [ | auto ].
      destruct (Hc (Some (fresh_ptr w)) (image.Rect ras) gl.RED gl.RED
                  (image.Pix (image.DrawGray g (image.Rect g) (image.Gray16 ras)
                                             (image.mkPoint 0 0)))) as [H | H]; auto.
    + rewrite (NewTextureFromImage_Gray16_none _ _ Hg). right. right. left. eauto.
  - rewrite NewTextureFromImage_NRGBA.
    destruct (Hc (Some (fresh_ptr w)) (image.Rect ras) gl.RGBA gl.RGBA (image.Pix ras))
      as [H | H]; auto.
  - destruct (image.NewRGBA bounds) as [g | ] eqn:Hg.
    + rewrite (NewTextureFromImage_Other _ At _ _ Hg).
      destruct (image.Stride g =? _); [ | auto ].
      destruct (Hc (Some (fresh_ptr w)) bounds gl.RGBA gl.RGBA
                  (image.Pix (image.DrawRGBA g (image.Rect g) (image.Other bounds At)
                                             (image.mkPoint 0 0)))) as [H | H]; auto.
    + rewrite (NewTextureFromImage_Other_none _ At _ Hg). right. right. left. eauto.
  - right. right. right. split; reflexivity.
Qed.

(** The number of open files plays no part in [NewTextureFromImage]. *)
Lemma NewTextureFromImage_open_files imageData w k :
  NewTextureFromImage imageData (with_open_files k w) =
  match NewTextureFromImage imageData w with
  | Returned r w' => Returned r (with_open_files k w')
  | Panicked why w' => Panicked why (with_open_files k w')
  end.
Proof.
  destruct imageData as [ras | ras | bounds At | ].
  - destruct (image.NewGray (image.Rect ras)) as [g | ] eqn:Hg.
    + rewrite !(NewTextureFromImage_Gray16 _ _ _ Hg).
      destruct (image.Stride g =? _); [ | reflexivity ].
      unfold completed. destruct (image.Pix _); reflexivity.
    + rewrite !(NewTextureFromImage_Gray16_none _ _ Hg). reflexivity.
  - rewrite !NewTextureFromImage_NRGBA.
    unfold completed. destruct (image.Pix _); reflexivity.
  - destruct (image.NewRGBA bounds) as [g | ] eqn:Hg.
    + rewrite !(NewTextureFromImage_Other _ At _ _ Hg).
      destruct (image.Stride g =? _); [ | reflexivity ].
      unfold completed. destruct (image.Pix _); reflexivity.
    + rewrite !(NewTextureFromImage_Other_none _ At _ Hg). reflexivity.
  - reflexivity.
Qed.

Lemma NewTextureFromImage_keeps_open_files imageData w :
  open_files (final (NewTextureFromImage imageData w)) = open_files w.
Proof.
  destruct (NewTextureFromImage_outcome imageData w)
    as [(i & f & pix & ->) | [-> | [[why ->] | [_ ->]]]]; reflexivity.
Qed.

End Outcomes.

(** X9: when [NewTextureFromImage] returns, the active texture unit is
    [TEXTURE0], whichever it was before; the binding of [TEXTURE_2D] on
    that unit is 0 after a return with a texture and the name just
    generated after a return of nil; and no other binding, of another
    unit or target, has changed. *)
Theorem NewTextureFromImage_context `{lib : image.Lib} imageData w r w' :
  NewTextureFromImage imageData w = Returned r w' ->
  gl.active (gl_state w') = gl.TEXTURE0
  /\ gl.bound gl.TEXTURE_2D (gl_state w')
     = match r with Some _ => 0 | None => gl.next_name (gl_state w) end
  /\ (forall key : Z * Z,
        key <> (gl.TEXTURE0, gl.TEXTURE_2D) ->
        gl.bindings (gl_state w') !! key = gl.bindings (gl_state w) !! key).
Proof.
  intros H.
  apply NewTextureFromImage_returns in H
    as [(internalformat & format & pix & -> & ->) | [-> ->]].
  - split; [ reflexivity | ]. split; [ apply finished_unbound | ].
    intros key Hkey. rewrite finished_bindings. apply lookup_insert_ne. congruence.
  - split; [ reflexivity | ]. split; [ apply refused_bound | ].
    intros key Hkey. rewrite refused_bindings. apply lookup_insert_ne. congruence.
Qed.

Lemma NewTextureFromImage_context_witness :
  gl.active (gl_state (finished (rect 0 0 4 4) gl.RGBA gl.RGBA (repeat 255 64%nat) world0))
  = gl.TEXTURE0
  /\ gl.bound gl.TEXTURE_2D
       (gl_state (finished (rect 0 0 4 4) gl.RGBA gl.RGBA (repeat 255 64%nat) world0))
     = 0.
Proof.
  assert (Hnew :
    NewTextureFromImage (lib := image.go_image no_draw no_draw) nrgba_4x4 world0 =
    Returned (Some (fresh_ptr world0))
             (finished (rect 0 0 4 4) gl.RGBA gl.RGBA (repeat 255 64%nat) world0))
    by (vm_compute; reflexivity).
  destruct (NewTextureFromImage_context (lib := image.go_image no_draw no_draw)
              nrgba_4x4 world0 _ _ Hnew) as (Ha & Hb & _).
  split; [ exact Ha | exact Hb ].
Defined.

(** X10: the texture that [NewTextureFromImage] returns has, as its
    [ID], the name that the context generated, and the object of that
    name has linear minifying and magnifying filters and clamps to the
    edge in both directions. *)
Theorem NewTextureFromImage_sampler `{lib : image.Lib} imageData w p w' :
  NewTextureFromImage imageData w = Returned (Some p) w' ->
  ID p w' = Returned (gl.next_name (gl_state w)) w'
  /\ (let ps := gl.params (gl.object (gl.next_name (gl_state w)) (gl_state w')) in
      ps !! gl.TEXTURE_MIN_FILTER = Some gl.LINEAR
      /\ ps !! gl.TEXTURE_MAG_FILTER = Some gl.LINEAR
      /\ ps !! gl.TEXTURE_WRAP_S = Some gl.CLAMP_TO_EDGE
      /\ ps !! gl.TEXTURE_WRAP_T = Some gl.CLAMP_TO_EDGE).
Proof.
  intros H.
  apply NewTextureFromImage_returns in H
    as [(internalformat & format & pix & [= ->] & ->) | [[=] _]].
  split; [ apply finished_fields | ].
  rewrite finished_object. cbn [gl.params]. apply sampled_lookup.
Qed.

Lemma NewTextureFromImage_sampler_witness :
  ID (fresh_ptr world0)
     (finished (rect 0 0 4 4) gl.RGBA gl.RGBA (repeat 255 64%nat) world0)
  = Returned 1 (finished (rect 0 0 4 4) gl.RGBA gl.RGBA (repeat 255 64%nat) world0).
Proof.
  assert (Hnew :
    NewTextureFromImage (lib := image.go_image no_draw no_draw) nrgba_4x4 world0 =
    Returned (Some (fresh_ptr world0))
             (finished (rect 0 0 4 4) gl.RGBA gl.RGBA (repeat 255 64%nat) world0))
    by (vm_compute; reflexivity).
  exact (proj1 (NewTextureFromImage_sampler (lib := image.go_image no_draw no_draw)
                  nrgba_4x4 world0 _ _ Hnew)).
Defined.

(** X11: what a returned texture holds depends on the dynamic type of
    the image: the [Pix] of a [*image.NRGBA] itself as RGBA, the buffer
    of [image.NewGray] after [draw.Draw] as RED for a [*image.Gray16],
    the buffer of [image.NewRGBA] after [draw.Draw] as RGBA for any
    other image; internal and source format agree, the type is
    [UNSIGNED_BYTE] and the size is the one of the [Texture]. *)
Theorem NewTextureFromImage_upload `{lib : image.Lib} imageData w p w' :
  NewTextureFromImage imageData w = Returned (Some p) w' ->
  exists internalformat pix,
    gl.image (gl.object (gl.next_name (gl_state w)) (gl_state w'))
    = Some (gl.mkTexImage 0 internalformat
              (GoInt.int32 (image.Dx (image.Bounds imageData)))
              (GoInt.int32 (image.Dy (image.Bounds imageData)))
              0 internalformat gl.UNSIGNED_BYTE pix)
    /\ match imageData with
       | image.NRGBA r => internalformat = gl.RGBA /\ pix = image.Pix r
       | image.Gray16 r =>
         internalformat = gl.RED
         /\ exists g, image.NewGray (image.Rect r) = Some g
                      /\ pix = image.Pix (image.DrawGray g (image.Rect g) imageData
                                                         (image.mkPoint 0 0))
       | image.Other bounds _ =>
         internalformat = gl.RGBA
         /\ exists g, image.NewRGBA bounds = Some g
                      /\ pix = image.Pix (image.DrawRGBA g (image.Rect g) imageData
                                                         (image.mkPoint 0 0))
       | image.Nil => False
       end.
Proof.
  destruct imageData as [ras | ras | bounds At | ]; cbn [image.Bounds];
    [ | | | rewrite NewTextureFromImage_Nil; discriminate ].
  - destruct (image.NewGray (image.Rect ras)) as [g | ] eqn:Hg.
    + rewrite (NewTextureFromImage_Gray16 _ _ _ Hg).
      destruct (image.Stride g =? _); [ | discriminate ].
      intros H. apply completed_inv in H as (_ & -> & _).
      do 2 eexists. split; [ apply finished_image | ]. eauto.
    + rewrite (NewTextureFromImage_Gray16_none _ _ Hg). discriminate.
  - rewrite NewTextureFromImage_NRGBA.
    intros H. apply completed_inv in H as (_ & -> & _).
    do 2 eexists. split; [ apply finished_image | ]. auto.
  - destruct (image.NewRGBA bounds) as [g | ] eqn:Hg.
    + rewrite (NewTextureFromImage_Other _ At _ _ Hg).
      destruct (image.Stride g =? _); [ | discriminate ].
      intros H. apply completed_inv in H as (_ & -> & _).
      do 2 eexists. split; [ apply finished_image | ]. eauto.
    + rewrite (NewTextureFromImage_Other_none _ At _ Hg). discriminate.
Qed.

Lemma NewTextureFromImage_upload_witness :
  exists internalformat pix,
    gl.image (gl.object (gl.next_name (gl_state world0))
                (gl_state (finished (rect 0 0 4 4) gl.RGBA gl.RGBA
                                    (repeat 255 64%nat) world0)))
    = Some (gl.mkTexImage 0 internalformat
              (GoInt.int32 (image.Dx (image.Bounds nrgba_4x4)))
              (GoInt.int32 (image.Dy (image.Bounds nrgba_4x4)))
              0 internalformat gl.UNSIGNED_BYTE pix)
    /\ internalformat = gl.RGBA /\ pix = repeat 255 64%nat.
Proof.
  assert (Hnew :
    NewTextureFromImage (lib := image.go_image no_draw no_draw) nrgba_4x4 world0 =
    Returned (Some (fresh_ptr world0))
             (finished (rect 0 0 4 4) gl.RGBA gl.RGBA (repeat 255 64%nat) world0))
    by (vm_compute; reflexivity).
  exact (NewTextureFromImage_upload (lib := image.go_image no_draw no_draw)
           nrgba_4x4 world0 _ _ Hnew).
Defined.

(** X12: [NewTextureFromImage] prints nothing when it returns a
    texture and exactly the stride diagnostic when it returns nil; in
    both cases the [Texture] record that it allocated stays in the
    heap, and the textures that were there are as they were. *)
Theorem NewTextureFromImage_output `{lib : image.Lib} imageData w r w' :
  NewTextureFromImage imageData w = Returned r w' ->
  stdout w' = match r with
              | Some _ => stdout w
              | None => stdout w ++ ["Error creating texture: unsupported stride"
                                     +:+ newline]
              end
  /\ heap w' !! fresh_ptr w = Some (created (image.Bounds imageData) w)
  /\ (forall q t, heap w !! q = Some t -> heap w' !! q = Some t).
Proof.
  intros H.
  assert (Hfresh : forall q t, heap w !! q = Some t -> q <> fresh_ptr w).
  { intros q t Hq ->. apply (is_fresh (dom (heap w))).
    apply elem_of_dom. eauto. }
  apply NewTextureFromImage_returns in H
    as [(internalformat & format & pix & -> & ->) | [-> ->]];
    (split; [ reflexivity | ]); (split; [ apply lookup_insert_eq | ]);
    intros q t Hq; cbn [heap finished refused];
    rewrite lookup_insert_ne by (apply not_eq_sym, (Hfresh q t Hq)); exact Hq.
Qed.

Lemma NewTextureFromImage_output_witness :
  stdout (refused (rect 0 0 3 2) world0)
  = stdout world0 ++ ["Error creating texture: unsupported stride" +:+ newline].
Proof.
  assert (Hnew :
    NewTextureFromImage (lib := image.padded_image no_draw no_draw) gray16_3x2 world0 =
    Returned None (refused (rect 0 0 3 2) world0))
    by (vm_compute; reflexivity).
  exact (proj1 (NewTextureFromImage_output (lib := image.padded_image no_draw no_draw)
                  gray16_3x2 world0 _ _ Hnew)).
Defined.

(** X13: every call of [NewTextureFromImage] on an image that has
    bounds uses up one texture name, whether it returns a texture,
    returns nil or panics: nothing gives the name back on the failure
    paths.  On a nil image the call panics in [imageData.Bounds()],
    before [gl.GenTextures]: it uses up no name and leaves the world as
    it was. *)
Theorem NewTextureFromImage_consumes_name `{lib : image.Lib} :
  (forall imageData w,
      imageData <> image.Nil ->
      gl.next_name (gl_state (final (NewTextureFromImage imageData w)))
      = gl.next_name (gl_state w) + 1)
  /\ (forall w, NewTextureFromImage image.Nil w = Panicked nil_dereference w).
Proof.
  split; [ | intros w; reflexivity ].
  intros imageData w Hnil.
  destruct (NewTextureFromImage_outcome imageData w)
    as [(i & f & pix & ->) | [-> | [[why ->] | [H _]]]];
    [ reflexivity | reflexivity | reflexivity | contradiction ].
Qed.

Lemma NewTextureFromImage_consumes_name_witness :
  gl.next_name
    (gl_state (final (NewTextureFromImage (lib := image.go_image no_draw no_draw)
                                          nrgba_4x4 world0)))
  = gl.next_name (gl_state world0) + 1.
Proof.
  apply (proj1 (NewTextureFromImage_consumes_name (lib := image.go_image no_draw no_draw))
           nrgba_4x4 world0).
  discriminate.
Defined.

(** X14: two textures created one after the other are different
    records with different names, and the second creation changes
    neither the fields of the first texture nor the parameters and the
    image of its object. *)
Theorem NewTextureFromImage_twice `{lib : image.Lib} image1 image2 w p1 w1 p2 w2 :
  NewTextureFromImage image1 w = Returned (Some p1) w1 ->
  NewTextureFromImage image2 w1 = Returned (Some p2) w2 ->
  p1 <> p2
  /\ heap w2 !! p1 = heap w1 !! p1
  /\ (exists t1 t2,
        heap w2 !! p1 = Some t1 /\ heap w2 !! p2 = Some t2 /\ id t1 <> id t2
        /\ gl.object (id t1) (gl_state w2) = gl.object (id t1) (gl_state w1)).
Proof.
  intros H1 H2.
  apply NewTextureFromImage_returns in H1
    as [(i1 & f1 & pix1 & [= ->] & ->) | [[=] _]].
  apply NewTextureFromImage_returns in H2
    as [(i2 & f2 & pix2 & [= ->] & ->) | [[=] _]].
  set (w1 := finished (image.Bounds image1) i1 f1 pix1 w).
  assert (Hin : heap w1 !! fresh_ptr w = Some (created (image.Bounds image1) w))
    by apply lookup_insert_eq.
  assert (Hne : fresh_ptr w <> fresh_ptr w1).
  { intros Heq. apply (is_fresh (dom (heap w1))). fold (fresh_ptr w1).
    rewrite <- Heq. apply elem_of_dom. eauto. }
  assert (Hname : gl.next_name (gl_state w1) = gl.next_name (gl_state w) + 1)
    by reflexivity.
  split; [ exact Hne | ].
  assert (Hkeep : heap (finished (image.Bounds image2) i2 f2 pix2 w1) !! fresh_ptr w
                  = heap w1 !! fresh_ptr w).
  { cbn [heap finished]. apply lookup_insert_ne. congruence. }
  split; [ exact Hkeep | ].
  exists (created (image.Bounds image1) w), (created (image.Bounds image2) w1).
  split; [ rewrite Hkeep; exact Hin | ].
  split; [ apply lookup_insert_eq | ].
  cbn [created id]. split; [ lia | ].
  apply finished_other. lia.
Qed.

Lemma NewTextureFromImage_twice_witness :
  fresh_ptr world0
  <> fresh_ptr (finished (rect 0 0 4 4) gl.RGBA gl.RGBA (repeat 255 64%nat) world0).
Proof.
  assert (H1 :
    NewTextureFromImage (lib := image.go_image no_draw no_draw) nrgba_4x4 world0 =
    Returned (Some (fresh_ptr world0))
             (finished (rect 0 0 4 4) gl.RGBA gl.RGBA (repeat 255 64%nat) world0))
    by (vm_compute; reflexivity).
  assert (H2 :
    NewTextureFromImage (lib := image.go_image no_draw no_draw) nrgba_4x4
      (finished (rect 0 0 4 4) gl.RGBA gl.RGBA (repeat 255 64%nat) world0) =
    Returned (Some (fresh_ptr (finished (rect 0 0 4 4) gl.RGBA gl.RGBA
                                        (repeat 255 64%nat) world0)))
             (finished (rect 0 0 4 4) gl.RGBA gl.RGBA (repeat 255 64%nat)
                (finished (rect 0 0 4 4) gl.RGBA gl.RGBA (repeat 255 64%nat) world0)))
    by (vm_compute; reflexivity).
  exact (proj1 (NewTextureFromImage_twice (lib := image.go_image no_draw no_draw)
                  nrgba_4x4 nrgba_4x4 world0 _ _ _ _ H1 H2)).
Defined.

(** ** NewTextureFromFile *)

Section FromFile.
Context `{lib : image.Lib} `{host : Host}.

Lemma NewTextureFromFile_decoded_eq (filePath : string) (file : File)
    (decodedImage : image.Image) (format : string) (w : World) :
  os_Open filePath = inl file ->
  image_Decode file = image.DecodeOk decodedImage format ->
  NewTextureFromFile filePath w = NewTextureFromImage decodedImage w.
Proof.
  intros Hopen Hdec. unfold NewTextureFromFile. rewrite Hopen, Hdec.
  unfold bind at 1, file_opened, defer, file_Close.
  change (mkWorld (gl_state w) (heap w) (stdout w) (S (open_files w)))
    with (with_open_files (S (open_files w)) w).
  rewrite NewTextureFromImage_open_files.
  pose proof (NewTextureFromImage_keeps_open_files decodedImage w) as Hk.
  destruct (NewTextureFromImage decodedImage w) as [r w' | why w'];
    cbn [final] in Hk; destruct w'; cbn in Hk |- *; subst; reflexivity.
Qed.

Lemma NewTextureFromFile_keeps_open_files (filePath : string) (w : World) :
  open_files (final (NewTextureFromFile filePath w)) = open_files w.
Proof.
  destruct (os_Open filePath) as [file | err] eqn:Hopen.
  - destruct (image_Decode file) as [decodedImage format | format err] eqn:Hdec.
    + rewrite (NewTextureFromFile_decoded_eq _ _ _ _ _ Hopen Hdec).
      apply NewTextureFromImage_keeps_open_files.
    + unfold NewTextureFromFile. rewrite Hopen, Hdec. reflexivity.
  - unfold NewTextureFromFile. rewrite Hopen. reflexivity.
Qed.

End FromFile.

(** X15: when the file does not open, [NewTextureFromFile] returns nil
    after printing "Error loading texture." with the error of
    [os.Open]; it decodes nothing and leaves the OpenGL context and the
    heap as they were. *)
Theorem NewTextureFromFile_not_opened `{lib : image.Lib} `{host : Host}
    (filePath err : string) (w : World) :
  os_Open filePath = inr err ->
  NewTextureFromFile filePath w =
  Returned None
    (mkWorld (gl_state w) (heap w)
       (stdout w ++ ["Error loading texture. " +:+ err +:+ newline]) (open_files w)).
Proof. intros Hopen. unfold NewTextureFromFile. rewrite Hopen. reflexivity. Qed.

Lemma NewTextureFromFile_not_opened_witness :
  NewTextureFromFile (lib := image.go_image no_draw no_draw) (host := broken_host)
                     "missing.png" world0 =
  Returned None
    (mkWorld gl.init ∅
       ["Error loading texture. open missing.png: no such file or directory" +:+ newline]
       0).
Proof.
  apply (NewTextureFromFile_not_opened
           (lib := image.go_image no_draw no_draw) (host := broken_host)
           "missing.png" "open missing.png: no such file or directory" world0).
  reflexivity.
Defined.

(** X16: when the file opens and decodes, [NewTextureFromFile] does
    what [NewTextureFromImage] does on the decoded image: the same
    result, or the same panic, in the same world, the file closed
    again; the format name is not used. *)
Theorem NewTextureFromFile_decoded `{lib : image.Lib} `{host : Host}
    (filePath : string) (file : File) (decodedImage : image.Image)
    (format : string) (w : World) :
  os_Open filePath = inl file ->
  image_Decode file = image.DecodeOk decodedImage format ->
  NewTextureFromFile filePath w = NewTextureFromImage decodedImage w.
Proof. apply NewTextureFromFile_decoded_eq. Qed.

Lemma NewTextureFromFile_decoded_witness :
  NewTextureFromFile (lib := image.go_image no_draw no_draw) (host := sound_host)
                     "tile.png" world0
  = NewTextureFromImage (lib := image.go_image no_draw no_draw) nrgba_4x4 world0.
Proof.
  apply (NewTextureFromFile_decoded
           (lib := image.go_image no_draw no_draw) (host := sound_host)
           "tile.png" [137; 80; 78; 71] nrgba_4x4 "png" world0);
    reflexivity.
Defined.

(** X17: [NewTextureFromFile] leaves as many files open as it found,
    on every path: the file not opened, not decoded, a texture
    returned, nil returned, or a panic in [NewTextureFromImage]. *)
Theorem NewTextureFromFile_closes_file `{lib : image.Lib} `{host : Host}
    (filePath : string) (w : World) :
  open_files (final (NewTextureFromFile filePath w)) = open_files w.
Proof. apply NewTextureFromFile_keeps_open_files. Qed.

(** ** The methods of a texture *)

(** X18: [Bind] on a texture makes its [id] the binding of
    [TEXTURE_2D] on the active unit, and [Unbind] after it makes that
    binding 0; neither changes the active unit, a binding of another
    unit or target, a texture object, the heap or the output. *)
Theorem Bind_then_Unbind (p : ptr) (t : Texture) (w : World) :
  heap w !! p = Some t ->
  exists w1 w2,
    Bind p w = Returned tt w1
    /\ Unbind p w1 = Returned tt w2
    /\ gl.bound gl.TEXTURE_2D (gl_state w1) = id t
    /\ gl.bound gl.TEXTURE_2D (gl_state w2) = 0
    /\ (forall key : Z * Z,
          key <> (gl.active (gl_state w), gl.TEXTURE_2D) ->
          gl.bindings (gl_state w1) !! key = gl.bindings (gl_state w) !! key
          /\ gl.bindings (gl_state w2) !! key = gl.bindings (gl_state w) !! key)
    /\ gl.active (gl_state w2) = gl.active (gl_state w)
    /\ gl.objects (gl_state w2) = gl.objects (gl_state w)
    /\ heap w2 = heap w /\ stdout w2 = stdout w.
Proof.
  intros Hp. do 2 eexists.
  split; [ unfold Bind, bind, load, gl_call; rewrite Hp; reflexivity | ].
  split; [ reflexivity | ].
  cbn [gl_state heap stdout].
  split; [ apply bound_BindTexture | ].
  split; [ apply bound_BindTexture | ].
  split; [ | repeat split ].
  intros key Hkey. unfold gl.BindTexture. cbn [gl.bindings gl.active].
  rewrite !lookup_insert_ne by congruence. split; reflexivity.
Qed.

Lemma Bind_then_Unbind_witness :
  exists w1 w2,
    Bind (fresh_ptr world0)
         (finished (rect 0 0 4 4) gl.RGBA gl.RGBA (repeat 255 64%nat) world0)
    = Returned tt w1
    /\ Unbind (fresh_ptr world0) w1 = Returned tt w2
    /\ gl.bound gl.TEXTURE_2D (gl_state w1) = 1
    /\ gl.bound gl.TEXTURE_2D (gl_state w2) = 0.
Proof.
  destruct (Bind_then_Unbind (fresh_ptr world0) (created (rect 0 0 4 4) world0)
              (finished (rect 0 0 4 4) gl.RGBA gl.RGBA (repeat 255 64%nat) world0))
    as (w1 & w2 & H1 & H2 & Hb1 & Hb2 & _); [ vm_compute; reflexivity | ].
  exists w1, w2. auto.
Defined.

(** X19: on a pointer that holds no texture, a nil one for instance,
    [Bind], [ID], [Width] and [Height] panic and change nothing, while
    [Unbind], which does not read the texture, still sets the binding
    of [TEXTURE_2D] to 0. *)
Theorem methods_on_nil (p : ptr) (w : World) :
  heap w !! p = None ->
  (exists why, Bind p w = Panicked why w)
  /\ (exists why, ID p w = Panicked why w)
  /\ (exists why, Width p w = Panicked why w)
  /\ (exists why, Height p w = Panicked why w)
  /\ (exists w', Unbind p w = Returned tt w'
                 /\ gl.bound gl.TEXTURE_2D (gl_state w') = 0).
Proof.
  intros Hp. unfold Bind, ID, Width, Height, Unbind, bind, load, gl_call.
  rewrite Hp. repeat split; eauto.
  eexists. split; [ reflexivity | apply bound_BindTexture ].
Qed.

Lemma methods_on_nil_witness :
  exists why, Width 1%positive world0 = Panicked why world0.
Proof.
  exact (proj1 (proj2 (proj2 (methods_on_nil 1%positive world0 eq_refl)))).
Defined.

(** ** NewEmptyTexture: every return, and negative dimensions *)

Lemma NewEmptyTexture_none `{lib : image.Lib} width height pixelFormat w :
  image.NewRGBA (rect 0 0 width height) = None ->
  NewEmptyTexture width height pixelFormat w
  = Panicked (image.NewRGBA_panic (rect 0 0 width height)) w.
Proof.
  intros H. unfold NewEmptyTexture. fold (rect 0 0 width height). rewrite H.
  reflexivity.
Qed.

(** X20: whenever [NewEmptyTexture] returns, it returns a texture and
    a nil error, never an error of its own; [TEXTURE_2D] is unbound,
    the object named by the texture's [ID] has the four sampler
    parameters, and its image is the buffer that [image.NewRGBA] gave,
    of the size of that buffer's rectangle converted to [int32], with
    [pixelFormat] as internal format and [uint32(pixelFormat)] as
    source format. *)
Theorem NewEmptyTexture_returns `{lib : image.Lib} width height pixelFormat w r w' :
  NewEmptyTexture width height pixelFormat w = Returned r w' ->
  exists p imageData,
    r = (Some p, None)
    /\ image.NewRGBA (rect 0 0 width height) = Some imageData
    /\ gl.bound gl.TEXTURE_2D (gl_state w') = 0
    /\ ID p w' = Returned (gl.next_name (gl_state w)) w'
    /\ gl.object (gl.next_name (gl_state w)) (gl_state w')
       = gl.mkTexObject
           (sampled (gl.params (gl.object (gl.next_name (gl_state w)) (gl_state w))))
           (Some (gl.mkTexImage 0 pixelFormat
                    (GoInt.int32 (image.Dx (image.Rect imageData)))
                    (GoInt.int32 (image.Dy (image.Rect imageData)))
                    0 (GoInt.uint32 pixelFormat) gl.UNSIGNED_BYTE
                    (image.Pix imageData))).
Proof.
  destruct (image.NewRGBA (rect 0 0 width height)) as [imageData | ] eqn:Ha.
  - rewrite (NewEmptyTexture_eq _ _ _ _ _ Ha).
    intros H. apply completed_inv in H as (-> & -> & _).
    exists (fresh_ptr w), imageData.
    split; [ reflexivity | ]. split; [ reflexivity | ].
    split; [ apply finished_unbound | ].
    split; [ apply finished_fields | apply finished_object ].
  - rewrite (NewEmptyTexture_none _ _ _ _ Ha). discriminate.
Qed.

Lemma NewEmptyTexture_returns_witness :
  exists p imageData,
    (Some (fresh_ptr world0), @None string) = (Some p, None)
    /\ image.NewRGBA (Lib := image.go_image no_draw no_draw) (rect 0 0 4 4)
       = Some imageData
    /\ gl.bound gl.TEXTURE_2D
         (gl_state (finished (rect 0 0 4 4) gl.RGBA (GoInt.uint32 gl.RGBA)
                             (repeat 0 64%nat) world0)) = 0.
Proof.
  assert (Hnew :
    NewEmptyTexture (lib := image.go_image no_draw no_draw) 4 4 gl.RGBA world0 =
    Returned (Some (fresh_ptr world0), None)
             (finished (rect 0 0 4 4) gl.RGBA (GoInt.uint32 gl.RGBA)
                       (repeat 0 64%nat) world0))
    by (vm_compute; reflexivity).
  destruct (NewEmptyTexture_returns (lib := image.go_image no_draw no_draw)
              4 4 gl.RGBA world0 _ _ Hnew) as (p & imageData & Hr & Ha & Hb & _).
  exists p, imageData. auto.
Defined.

(** X21: with the allocator of Go's [image] package, a negative width
    or height makes [NewEmptyTexture] panic in [image.NewRGBA], before
    any OpenGL call: the context, the heap and the output are as they
    were. *)
Theorem NewEmptyTexture_negative drawGray drawRGBA
    (width height pixelFormat : Z) (w : World) :
  - 2 ^ 63 <= width < 2 ^ 63 -> - 2 ^ 63 <= height < 2 ^ 63 ->
  width < 0 \/ height < 0 ->
  NewEmptyTexture (lib := image.go_image drawGray drawRGBA) width height pixelFormat w
  = Panicked "image: NewRGBA Rectangle has huge or negative dimensions" w.
Proof.
  intros Hw Hh Hneg.
  assert (Hr : image.Dx (rect 0 0 width height) < 0
               \/ image.Dy (rect 0 0 width height) < 0)
    by (rewrite Dx_origin, Dy_origin by assumption; exact Hneg).
  rewrite (NewEmptyTexture_none (lib := image.go_image drawGray drawRGBA))
    by (apply go_alloc_negative, Hr).
  cbn [image.NewRGBA_panic image.go_image]. unfold image.go_alloc_panic.
  rewrite pixelBufferLength_negative by exact Hr. reflexivity.
Qed.

Lemma NewEmptyTexture_negative_witness :
  NewEmptyTexture (lib := image.go_image no_draw no_draw) 16 (-1) gl.RGBA world0
  = Panicked "image: NewRGBA Rectangle has huge or negative dimensions" world0.
Proof.
  apply (NewEmptyTexture_negative no_draw no_draw 16 (-1) gl.RGBA world0).
  - split; [ vm_compute; discriminate | reflexivity ].
  - split; [ vm_compute; discriminate | reflexivity ].
  - right. reflexivity.
Defined.

(** ** When nil is returned *)

(** X22: [NewTextureFromImage] returns nil only from a stride check:
    never for a [*image.NRGBA], and for the other images only when the
    buffer that the allocator gave has a stride other than its width
    times 1, resp. 4. *)
Theorem NewTextureFromImage_nil_only_on_stride `{lib : image.Lib} imageData w w' :
  NewTextureFromImage imageData w = Returned None w' ->
  match imageData with
  | image.NRGBA _ => False
  | image.Gray16 r =>
    exists g, image.NewGray (image.Rect r) = Some g
              /\ image.Stride g <> GoInt.int (image.PX (image.Size (image.Rect g)) * 1)
  | image.Other bounds _ =>
    exists g, image.NewRGBA bounds = Some g
              /\ image.Stride g <> GoInt.int (image.PX (image.Size (image.Rect g)) * 4)
  | image.Nil => False
  end.
Proof. apply NewTextureFromImage_nil_inv. Qed.

Lemma NewTextureFromImage_nil_only_on_stride_witness :
  exists g, image.NewGray (Lib := image.padded_image no_draw no_draw) (rect 0 0 3 2)
            = Some g
            /\ image.Stride g <> GoInt.int (image.PX (image.Size (image.Rect g)) * 1).
Proof.
  assert (Hnew :
    NewTextureFromImage (lib := image.padded_image no_draw no_draw) gray16_3x2 world0 =
    Returned None (refused (rect 0 0 3 2) world0))
    by (vm_compute; reflexivity).
  exact (NewTextureFromImage_nil_only_on_stride
           (lib := image.padded_image no_draw no_draw) gray16_3x2 world0 _ Hnew).
Defined.

(** X23: with the allocators of Go's [image] package the stride checks
    never fail: [NewTextureFromImage] never returns nil, for no image
    and in no world; when it returns, it returns a texture. *)
Theorem NewTextureFromImage_go_never_nil drawGray drawRGBA imageData w r w' :
  NewTextureFromImage (lib := image.go_image drawGray drawRGBA) imageData w
  = Returned r w' ->
  exists p, r = Some p.
Proof.
  intros H. destruct r as [p | ]; [ eauto | exfalso ].
  apply (go_image_not_refused _ _ _ _ _ H).
Qed.

Lemma NewTextureFromImage_go_never_nil_witness :
  exists p, Some (fresh_ptr world0) = Some p.
Proof.
  assert (Hnew :
    NewTextureFromImage (lib := image.go_image no_draw no_draw) gray16_3x2 world0 =
    Returned (Some (fresh_ptr world0))
             (finished (rect 0 0 3 2) gl.RED gl.RED (repeat 0 6%nat) world0))
    by (vm_compute; reflexivity).
  exact (NewTextureFromImage_go_never_nil no_draw no_draw gray16_3x2 world0 _ _ Hnew).
Defined.
